(** * TabGen: finger-joint generation as a script of host calls

    A shallow embedding of [core/managers/fingermanager.py] and
    [core/fusion/sketch/sketch.py].  The program is a thin orchestration
    layer over the CAD host: it owns no geometry, it only issues calls
    into the host's object model and reads results back.  The embedding
    therefore records the document-changing host calls in a journal, in
    the order the Python code issues them, and treats every value the
    host computes (solved coordinates, validity of an edge reference, the
    timeline marker) as a read of the journal so far. *)

From Stdlib Require Import QArith Qabs.
From stdpp Require Import base strings gmap list pretty.

Open Scope string_scope.

(** ** Numbers

    Joint parameters and coordinates are Python numbers (floats for
    measured values, ints for literals).  Nothing proved below depends on
    an arithmetic law, so the numeric type is an interface with
    operations only; the statements hold for any implementation of it,
    rounding included. *)

Class PyNum (F : Type) := {
  fadd : F → F → F;            (* x + y *)
  fsub : F → F → F;            (* x - y *)
  fmul : F → F → F;            (* x * y *)
  fneg : F → F;                (* -x *)
  fabs : F → F;                (* abs(x) *)
  fgt0 : F → bool;             (* x > 0 *)
  ftruthy : F → bool;          (* bool(x) *)
  of_Z : Z → F;                (* an integer literal *)
  half : F;                    (* the literal .5 *)
  fstr : F → string            (* str(x) *)
}.

(** ** Host objects *)

(** A host object created by this code is named by the position, in the
    journal, of the call that returned it. *)
Definition Handle := nat.

Definition Edge := nat.
Definition Body := nat.
Definition Face := nat.

Record Point3D (F : Type) := Point3D_create { px : F; py : F; pz : F }.
Arguments Point3D_create {F} _ _ _.
Arguments px {F} _.
Arguments py {F} _.
Arguments pz {F} _.

(** The rectangle wrapper tracks four named lines and the corner points
    derived from them.  A rectangle is either the border of the selected
    face or one returned by [addTwoPointRectangle]. *)
Inductive RectId := Border | Drawn (h : Handle).
Inductive Side := top | bottom | left | right.
Inductive Corner := bottom_left | bottom_right | top_left | top_right.

Definition Line : Type := RectId * Side.
Definition SketchPoint : Type := RectId * Corner.

Inductive SketchEntity := EPoint (p : SketchPoint) | ELine (l : Line).

Inductive DimensionOrientation := HorizontalDimension | VerticalDimension.

Inductive ValueInput (F : Type) :=
| createByReal (x : F)
| createByString (s : string).
Arguments createByReal {F} _.
Arguments createByString {F} _.

Inductive FeatureOperation := CutFeatureOperation.
Inductive PatternDistanceType := ExtentPatternDistanceType.

(** Extent of an extrusion as the host's extrude input offers it: a
    finite distance ([setDistanceExtent]) or through the whole body
    ([setAllExtent]). *)
Inductive ExtentDirection := PositiveExtentDirection | NegativeExtentDirection.
Inductive Extent (F : Type) :=
| DistanceExtent (isSymmetric : bool) (distance : ValueInput F)
| AllExtent (direction : ExtentDirection).
Arguments DistanceExtent {F} _ _.
Arguments AllExtent {F} _.

Inductive Profile := profiles_item (i : nat).

Record ExtrudeInput (F : Type) := {
  ex_profiles : list Profile;
  ex_operation : FeatureOperation;
  ex_extent : option (Extent F);
  ex_participantBodies : list Body
}.
Arguments ex_profiles {F} _.
Arguments ex_operation {F} _.
Arguments ex_extent {F} _.
Arguments ex_participantBodies {F} _.

Record PatternInput (F : Type) := {
  pat_entities : list Handle;
  pat_directionOne : Edge;
  pat_quantityOne : ValueInput F;
  pat_distanceOne : ValueInput F;
  pat_distanceType : PatternDistanceType;
  pat_directionTwo : option (Edge * ValueInput F * ValueInput F)
}.
Arguments pat_entities {F} _.
Arguments pat_directionOne {F} _.
Arguments pat_quantityOne {F} _.
Arguments pat_distanceOne {F} _.
Arguments pat_distanceType {F} _.
Arguments pat_directionTwo {F} _.

Inductive FingerType := automaticWidthId | userDefinedWidthId.

(** The arguments [FingerManager.draw] hands to the parameter modifier. *)
Record ModifierArgs := {
  m_kind : FingerType;
  m_alias : string;
  m_finger_dimension : Handle;
  m_offset_dimension : Handle;
  m_finger_cut : Handle;
  m_finger_pattern : Handle;
  m_corner_cut : option Handle;
  m_corner_pattern : option Handle;
  m_left_dimension : option Handle;
  m_right_dimension : option Handle
}.

(** ** Host calls *)

Inductive HostCall (F : Type) :=
| addTwoPointRectangle (start end_ : Point3D F)
| addVertical (l : Line)
| addHorizontal (l : Line)
| addDistanceDimension (p1 p2 : SketchPoint)
    (o : DimensionOrientation) (text : Point3D F)
| addCoincident (p : SketchPoint) (e : SketchEntity)
| extrudes_add (input : ExtrudeInput F)
| patterns_add (input : PatternInput F)
| set_name (h : Handle) (name : string)
| messageBox (msg : string)
| modifier (args : ModifierArgs)
| timelineGroups_add (start_mp end_mp : Z).
Arguments addTwoPointRectangle {F} _ _.
Arguments addVertical {F} _.
Arguments addHorizontal {F} _.
Arguments addDistanceDimension {F} _ _ _ _.
Arguments addCoincident {F} _ _.
Arguments extrudes_add {F} _.
Arguments patterns_add {F} _.
Arguments set_name {F} _ _.
Arguments messageBox {F} _.
Arguments modifier {F} _.
Arguments timelineGroups_add {F} _ _.

Definition Journal (F : Type) := list (HostCall F).

(** What the code reads back from the host.  Each read depends on
    everything done to the document so far.  [next_point] is the helper
    [fusion.next_point], whose body is not part of the two source files;
    it is pure and stays uninterpreted. *)
Record Host (F : Type) := {
  isValid : Journal F → Edge → bool;
  geometry : Journal F → SketchPoint → Point3D F;
  markerPosition : Journal F → Z;
  is_vertical : Journal F → bool;
  width : Journal F → F;
  perpendicular_edge : Journal F → option Edge;
  next_point : Point3D F → F → F → bool → Point3D F
}.
Arguments isValid {F} _ _ _.
Arguments geometry {F} _ _ _.
Arguments markerPosition {F} _ _.
Arguments is_vertical {F} _ _.
Arguments width {F} _ _.
Arguments perpendicular_edge {F} _ _.
Arguments next_point {F} _ _ _ _ _.

(** ** Inputs *)

Record FingerParams (F : Type) := {
  start : F;
  finger_length : F;
  notches : F;
  pattern_distance : F;
  offset : F;
  depth : F;
  distance : F
}.
Arguments start {F} _.
Arguments finger_length {F} _.
Arguments notches {F} _.
Arguments pattern_distance {F} _.
Arguments offset {F} _.
Arguments depth {F} _.
Arguments distance {F} _.

Record Inputs (F : Type) := {
  selected_face : Face;
  selected_body : Body;
  finger_type : FingerType;
  tab_first : bool;
  parametric : bool;
  interior_value : F
}.
Arguments selected_face {F} _.
Arguments selected_body {F} _.
Arguments finger_type {F} _.
Arguments tab_first {F} _.
Arguments parametric {F} _.
Arguments interior_value {F} _.

(** The fields [FingerManager.__init__] fixes; [reference_line] is
    [self.border.reference_line]. *)
Record FingerManager (F : Type) := {
  inputs : Inputs F;
  alias : string;
  name : string;
  params : FingerParams F;
  reference_line : option Edge
}.
Arguments inputs {F} _.
Arguments alias {F} _.
Arguments name {F} _.
Arguments params {F} _.
Arguments reference_line {F} _.

(** ** Runs

    A run threads the journal and the attributes the manager sets on
    itself ([self.finger], [self.finger_cut], ...), and ends with a value
    or a raised exception.  The state reached when an exception is raised
    is kept: nothing is rolled back. *)

Inductive Exn := PrimaryAxisMissing | AttributeError.

Inductive Result (A : Type) := Ok (a : A) | Raise (e : Exn).
Arguments Ok {A} _.
Arguments Raise {A} _.

Record State (F : Type) := {
  journal : Journal F;
  attrs : gmap string Handle
}.
Arguments journal {F} _.
Arguments attrs {F} _.

Definition M (F A : Type) := State F → Result A * State F.

Definition ret {F A} (a : A) : M F A := λ s, (Ok a, s).

Definition bind {F A B} (c : M F A) (k : A → M F B) : M F B :=
  λ s, match c s with
       | (Ok a, s') => k a s'
       | (Raise e, s') => (Raise e, s')
       end.

Definition raise {F A} (e : Exn) : M F A := λ s, (Raise e, s).

(** A host call is appended to the journal; the object it returns is
    named by its position. *)
Definition call {F} (c : HostCall F) : M F Handle :=
  λ s, (Ok (List.length (journal s)),
        {| journal := (journal s ++ [c])%list; attrs := attrs s |}).

(** A read of the host. *)
Definition ask {F A} (f : Journal F → A) : M F A :=
  λ s, (Ok (f (journal s)), s).

(** [self.<a> = h] *)
Definition setattr {F} (a : string) (h : Handle) : M F unit :=
  λ s, (Ok tt, {| journal := journal s; attrs := <[a:=h]> (attrs s) |}).

(** [self.<a>] *)
Definition getattr {F} (a : string) : M F Handle :=
  λ s, match attrs s !! a with
       | Some h => (Ok h, s)
       | None => (Raise AttributeError, s)
       end.

(** [getattr(self, a, None)] *)
Definition getattr_default {F} (a : string) : M F (option Handle) :=
  λ s, (Ok (attrs s !! a), s).

Notation "'let*' x ':=' c1 'in' c2" := (bind c1 (λ x, c2))
  (at level 10, x name, c1 at level 100, c2 at level 200).
Notation "'run' c1 'in' c2" := (bind c1 (λ _, c2))
  (at level 10, c1 at level 100, c2 at level 200).

(** [self.params.distance], under a name that the arguments of
    [duplicate] do not shadow. *)
Definition params_distance {F} (self : FingerManager F) : F :=
  distance (params self).

(** ** Input objects of the host's feature collections

    [createInput] returns an input object local to the script; the
    setters below fill it in, and only [add] reaches the document. *)

Definition extrudes_createInput {F} (selection : list Profile)
    (op : FeatureOperation) : ExtrudeInput F :=
  {| ex_profiles := selection; ex_operation := op;
     ex_extent := None; ex_participantBodies := [] |}.

Definition setDistanceExtent {F} (isSymmetric : bool) (dist : ValueInput F)
    (i : ExtrudeInput F) : ExtrudeInput F :=
  {| ex_profiles := ex_profiles i; ex_operation := ex_operation i;
     ex_extent := Some (DistanceExtent isSymmetric dist);
     ex_participantBodies := ex_participantBodies i |}.

Definition set_participantBodies {F} (bodies : list Body)
    (i : ExtrudeInput F) : ExtrudeInput F :=
  {| ex_profiles := ex_profiles i; ex_operation := ex_operation i;
     ex_extent := ex_extent i; ex_participantBodies := bodies |}.

Definition patterns_createInput {F} (entities : list Handle) (primary : Edge)
    (quantity distance : ValueInput F) (dt : PatternDistanceType)
    : PatternInput F :=
  {| pat_entities := entities; pat_directionOne := primary;
     pat_quantityOne := quantity; pat_distanceOne := distance;
     pat_distanceType := dt; pat_directionTwo := None |}.

Definition setDirectionTwo {F} (secondary : Edge)
    (quantity distance : ValueInput F) (i : PatternInput F)
    : PatternInput F :=
  {| pat_entities := pat_entities i; pat_directionOne := pat_directionOne i;
     pat_quantityOne := pat_quantityOne i;
     pat_distanceOne := pat_distanceOne i;
     pat_distanceType := pat_distanceType i;
     pat_directionTwo := Some (secondary, quantity, distance) |}.

(** The state reached from [s] once the calls [es] are journalled and
    the manager's attributes are [a]. *)
Definition after {F} (s : State F) (es : list (HostCall F))
    (a : gmap string Handle) : State F :=
  {| journal := (journal s ++ es)%list; attrs := a |}.

(** ** Phases of the script

    What a host call does for the joint: draw sketch geometry, constrain
    or dimension it, extrude, pattern, rename an object, show a message,
    rewrite values as parametric expressions, group the timeline. *)

Inductive Phase :=
| Draw | Constrain | Extrude | Pattern | Rename | Message | Modify | Group.

Definition phase {F} (c : HostCall F) : Phase :=
  match c with
  | addTwoPointRectangle _ _ => Draw
  | addVertical _ | addHorizontal _
  | addDistanceDimension _ _ _ _ | addCoincident _ _ => Constrain
  | extrudes_add _ => Extrude
  | patterns_add _ => Pattern
  | set_name _ _ => Rename
  | messageBox _ => Message
  | modifier _ => Modify
  | timelineGroups_add _ _ => Group
  end.

#[global] Instance Phase_eq_dec : EqDecision Phase.
Proof. solve_decision. Defined.

(** The phases of a run of [draw], in order: the finger is drawn,
    constrained and cut, then patterned; the corners, when they are cut,
    are drawn, cut, patterned and constrained; the modifier runs when
    [modified]; the timeline group closes the run.  A pattern is preceded
    by a message box when it gets no second direction. *)
Definition finger_cut_phases : list Phase :=
  Draw :: replicate 8 Constrain ++ [Extrude; Rename].

Definition pattern_phases (message : bool) : list Phase :=
  (if message then [Message] else []) ++ [Pattern; Rename].

Definition corner_phases (message : bool) : list Phase :=
  [Draw; Draw; Extrude; Rename] ++ pattern_phases message
  ++ replicate 14 Constrain.

Definition draw_phases (message corners message' modified : bool)
    : list Phase :=
  finger_cut_phases ++ pattern_phases message
  ++ (if corners then corner_phases message' else [])
  ++ (if modified then [Modify] else [])
  ++ [Group; Rename].

(** From [s] to [s'] the journal grows by calls of the phases [ps];
    nothing journalled before is removed or changed. *)
Definition journalled {F} (s s' : State F) (ps : list Phase) : Prop :=
  ∃ es, journal s' = (journal s ++ es)%list ∧ phase <$> es = ps.

(** From [s] to [s'] the journal grows by calls that all satisfy [P]. *)
Definition journalled_with {F} (P : HostCall F → Prop) (s s' : State F)
    : Prop :=
  ∃ es, journal s' = (journal s ++ es)%list ∧ Forall P es.

Definition is_dimension {F} (c : HostCall F) : bool :=
  match c with addDistanceDimension _ _ _ _ => true | _ => false end.

(** The extrude cuts are told apart by the profiles they take: the
    finger cut takes the first profile of the sketch, the corner cut the
    two that follow. *)
Definition is_finger_cut {F} (c : HostCall F) : bool :=
  match c with
  | extrudes_add i =>
      match ex_profiles i with [profiles_item 0] => true | _ => false end
  | _ => false
  end.

Definition is_corner_cut {F} (c : HostCall F) : bool :=
  match c with
  | extrudes_add i =>
      match ex_profiles i with
      | [profiles_item 1; profiles_item 2] => true
      | _ => false
      end
  | _ => false
  end.

(** ** [FingerManager] *)

Section FingerManager.
Context {F : Type} `{PyNum F}.
Variable host : Host F.
Variable self : FingerManager F.

(** ['secondary valid: {}'.format(b)] *)
Definition secondary_valid_message (b : bool) : string :=
  "secondary valid: " +:+ (if b then "True" else "False").

(** [e and e.isValid]: the reference is present and the host still
    holds it valid. *)
Definition is_usable (j : Journal F) (e : option Edge) : bool :=
  match e with
  | None => false
  | Some e => isValid host j e
  end.

(** [not primary or not primary.isValid] is [not usable]. *)
Definition usable (e : option Edge) : M F bool :=
  ask (λ j, is_usable j e).

Definition duplicate (name : string) (features : list Handle)
    (quantity distance squantity : F)
    (primary secondary : option Edge) (body : Body) : M F Handle :=
  let* primary_ok := usable primary in
  match primary, primary_ok with
  | Some primary, true =>
      let entities := features in
      let quantity := createByReal quantity in
      let distance := createByReal distance in
      let input_ :=
        patterns_createInput entities primary quantity distance
          ExtentPatternDistanceType in
      (* self.params.distance > 0 and secondary and secondary.isValid *)
      let* second :=
        if fgt0 (params_distance self)
        then usable secondary else ret false in
      let* input_ :=
        match secondary, second with
        | Some secondary, true =>
            let second_distance :=
              createByReal (fsub (params_distance self)
                              (depth (params self))) in
            ret (setDirectionTwo secondary (createByReal squantity)
                   second_distance input_)
        | Some secondary, false =>
            let* v := ask (λ j, isValid host j secondary) in
            run call (messageBox (secondary_valid_message v)) in
            ret input_
        | None, _ =>
            (* the else branch reads [secondary.isValid] on None *)
            raise AttributeError
        end in
      let* pattern := call (patterns_add input_) in
      run call (set_name pattern name) in
      ret pattern
  | _, _ => raise PrimaryAxisMissing
  end.

Definition extrude (profiles : list Profile) (body : Body)
    (name : string) : M F Handle :=
  let selection := profiles in
  let dist :=
    createByString
      (fstr (fneg (fabs (fmul (depth (params self)) (of_Z 10))))) in
  let cut_input := extrudes_createInput selection CutFeatureOperation in
  let cut_input := setDistanceExtent false dist cut_input in
  let cut_input := set_participantBodies [body] cut_input in
  let* cut := call (extrudes_add cut_input) in
  run call (set_name cut name) in
  ret cut.

(** [Point3D.create(reference.x + .5, reference.y - .5, 0)] *)
Definition text_below (reference : Point3D F) : Point3D F :=
  Point3D_create (fadd (px reference) half) (fsub (py reference) half)
    (of_Z 0).

(** [Point3D.create(reference.x - .5, reference.y + .5, 0)] *)
Definition text_beside (reference : Point3D F) : Point3D F :=
  Point3D_create (fsub (px reference) half) (fadd (py reference) half)
    (of_Z 0).

Definition constrain_finger (finger : Handle) : M F unit :=
  let* reference := ask (λ j, geometry host j (Drawn finger, bottom_left)) in
  let* vertical := ask (is_vertical host) in
  let* self_finger := getattr "finger" in
  if vertical then
    run call (addVertical (Drawn self_finger, bottom)) in
    run call (addVertical (Drawn self_finger, top)) in
    run call (addHorizontal (Drawn self_finger, left)) in
    run call (addHorizontal (Drawn self_finger, right)) in
    let* d := call (addDistanceDimension (Drawn finger, bottom_left)
                      (Drawn finger, top_left) VerticalDimension
                      (text_beside reference)) in
    run setattr "finger_dimension" d in
    let* d := call (addDistanceDimension (Drawn finger, bottom_left)
                      (Border, bottom_left) VerticalDimension
                      (text_beside reference)) in
    run setattr "offset_dimension" d in
    run call (addCoincident (Drawn finger, bottom_right)
                (ELine (Border, right))) in
    run call (addCoincident (Drawn finger, top_left)
                (ELine (Border, left))) in
    ret tt
  else
    run call (addHorizontal (Drawn self_finger, bottom)) in
    run call (addHorizontal (Drawn self_finger, top)) in
    run call (addVertical (Drawn self_finger, left)) in
    run call (addVertical (Drawn self_finger, right)) in
    let* d := call (addDistanceDimension (Drawn finger, bottom_left)
                      (Drawn finger, bottom_right) HorizontalDimension
                      (text_below reference)) in
    run setattr "finger_dimension" d in
    let* d := call (addDistanceDimension (Drawn finger, bottom_left)
                      (Border, bottom_left) HorizontalDimension
                      (text_below reference)) in
    run setattr "offset_dimension" d in
    run call (addCoincident (Drawn finger, bottom_left)
                (ELine (Border, bottom))) in
    run call (addCoincident (Drawn finger, top_right)
                (ELine (Border, top))) in
    ret tt.

Definition draw_finger (body : Body) (primary secondary : option Edge)
    : M F unit :=
  let* start_ :=
    ask (λ j, next_point host (geometry host j (Border, bottom_left))
                (start (params self)) (of_Z 0) (is_vertical host j)) in
  let* end_ :=
    ask (λ j, next_point host start_ (finger_length (params self))
                (width host j) (is_vertical host j)) in
  let* finger := call (addTwoPointRectangle start_ end_) in
  run setattr "finger" finger in
  let* self_finger := getattr "finger" in
  run constrain_finger self_finger in
  let profiles := [profiles_item 0] in
  let cname := name self +:+ " Finger Cut Extrude" in
  let* cut := extrude profiles body cname in
  run setattr "finger_cut" cut in
  let quantity := notches (params self) in
  let distance := pattern_distance (params self) in
  let dname := name self +:+ " Finger Duplicate Pattern" in
  let* self_finger_cut := getattr "finger_cut" in
  let* pattern :=
    duplicate dname [self_finger_cut] quantity distance
      (fadd (interior_value (inputs self)) (of_Z 2))
      primary secondary body in
  setattr "finger_pattern" pattern.

Definition draw_left_corner : M F Handle :=
  let* start_ := ask (λ j, geometry host j (Border, bottom_left)) in
  let* end_ :=
    ask (λ j, next_point host start_ (offset (params self))
                (width host j) (is_vertical host j)) in
  call (addTwoPointRectangle start_ end_).

Definition draw_right_corner : M F Handle :=
  let* start_ :=
    ask (λ j, next_point host (geometry host j (Border, bottom_right))
                (fneg (offset (params self))) (of_Z 0)
                (is_vertical host j)) in
  let* end_ :=
    ask (λ j, next_point host start_ (offset (params self))
                (width host j) (is_vertical host j)) in
  call (addTwoPointRectangle start_ end_).

Definition constrain_horizontal_corners (left_corner right_corner : Handle)
    : M F unit :=
  let* lreference :=
    ask (λ j, geometry host j (Drawn left_corner, bottom_left)) in
  let* rreference :=
    ask (λ j, geometry host j (Drawn right_corner, bottom_left)) in
  let* d := call (addDistanceDimension (Drawn left_corner, bottom_left)
                    (Drawn left_corner, bottom_right) HorizontalDimension
                    (text_below lreference)) in
  run setattr "left_dimension" d in
  run call (addCoincident (Drawn left_corner, bottom_left)
              (EPoint (Border, bottom_left))) in
  run call (addCoincident (Drawn left_corner, top_right)
              (ELine (Border, top))) in
  run call (addHorizontal (Drawn left_corner, bottom)) in
  run call (addHorizontal (Drawn left_corner, top)) in
  run call (addVertical (Drawn left_corner, left)) in
  run call (addVertical (Drawn left_corner, right)) in
  let* d := call (addDistanceDimension (Drawn right_corner, bottom_left)
                    (Drawn right_corner, bottom_right) HorizontalDimension
                    (text_below rreference)) in
  run setattr "right_dimension" d in
  run call (addCoincident (Drawn right_corner, bottom_left)
              (ELine (Border, bottom))) in
  run call (addCoincident (Drawn right_corner, top_right)
              (EPoint (Border, top_right))) in
  run call (addHorizontal (Drawn right_corner, bottom)) in
  run call (addHorizontal (Drawn right_corner, top)) in
  run call (addVertical (Drawn right_corner, left)) in
  run call (addVertical (Drawn right_corner, right)) in
  ret tt.

Definition constrain_vertical_corners (left_corner right_corner : Handle)
    : M F unit :=
  let* lreference :=
    ask (λ j, geometry host j (Drawn left_corner, bottom_left)) in
  let* rreference :=
    ask (λ j, geometry host j (Drawn right_corner, bottom_left)) in
  let* d := call (addDistanceDimension (Drawn left_corner, bottom_left)
                    (Drawn left_corner, bottom_right) HorizontalDimension
                    (text_below lreference)) in
  run setattr "left_dimension" d in
  run call (addCoincident (Drawn left_corner, bottom_left)
              (EPoint (Border, bottom_left))) in
  run call (addCoincident (Drawn left_corner, top_right)
              (ELine (Border, top))) in
  run call (addHorizontal (Drawn left_corner, bottom)) in
  run call (addHorizontal (Drawn left_corner, top)) in
  run call (addVertical (Drawn left_corner, left)) in
  run call (addVertical (Drawn left_corner, right)) in
  let* d := call (addDistanceDimension (Drawn right_corner, bottom_left)
                    (Drawn right_corner, bottom_right) HorizontalDimension
                    (text_below rreference)) in
  run setattr "right_dimension" d in
  run call (addCoincident (Drawn right_corner, bottom_left)
              (ELine (Border, bottom))) in
  run call (addCoincident (Drawn right_corner, top_right)
              (EPoint (Border, top_right))) in
  run call (addHorizontal (Drawn right_corner, bottom)) in
  run call (addHorizontal (Drawn right_corner, top)) in
  run call (addVertical (Drawn right_corner, left)) in
  run call (addVertical (Drawn right_corner, right)) in
  ret tt.

Definition draw_corner (body : Body) (primary secondary : option Edge)
    : M F unit :=
  let* c := draw_left_corner in
  run setattr "left_corner" c in
  let* c := draw_right_corner in
  run setattr "right_corner" c in
  let name_ := name self +:+ " Corner Cut Extrude" in
  let profiles := [profiles_item 1; profiles_item 2] in
  let* cut := extrude profiles body name_ in
  run setattr "corner_cut" cut in
  let dname := name self +:+ " Corner Duplicate Pattern" in
  let* self_corner_cut := getattr "corner_cut" in
  let* pattern :=
    duplicate dname [self_corner_cut] (of_Z 1) (of_Z 0) (of_Z 2)
      primary secondary body in
  run setattr "corner_pattern" pattern in
  let* vertical := ask (is_vertical host) in
  let* left_corner := getattr "left_corner" in
  let* right_corner := getattr "right_corner" in
  if vertical
  then constrain_vertical_corners left_corner right_corner
  else constrain_horizontal_corners left_corner right_corner.

(** The arguments of [self.modifier(self.alias, ..., self.finger_dimension,
    ..., getattr(self, 'right_dimension', None))], read from the
    manager's attributes; [None] when one of the four attributes read
    without a default is not set. *)
Definition modifier_args (a : gmap string Handle) : option ModifierArgs :=
  finger_dimension ← a !! "finger_dimension";
  offset_dimension ← a !! "offset_dimension";
  finger_cut ← a !! "finger_cut";
  finger_pattern ← a !! "finger_pattern";
  Some {| m_kind := finger_type (inputs self);
          m_alias := alias self;
          m_finger_dimension := finger_dimension;
          m_offset_dimension := offset_dimension;
          m_finger_cut := finger_cut;
          m_finger_pattern := finger_pattern;
          m_corner_cut := a !! "corner_cut";
          m_corner_pattern := a !! "corner_pattern";
          m_left_dimension := a !! "left_dimension";
          m_right_dimension := a !! "right_dimension" |}.

(** The modifier ([automatic_params] or [user_defined_params], chosen by
    the finger type) is outside the two source files; its invocation is
    journalled as one step with the arguments it receives. *)
Definition call_modifier : M F unit :=
  λ s, match modifier_args (attrs s) with
       | Some args => (run call (modifier args) in ret tt) s
       | None => (Raise AttributeError, s)
       end.

Definition draw : M F unit :=
  let body := selected_body (inputs self) in
  let primary := reference_line self in
  let* secondary := ask (perpendicular_edge host) in
  let* mp := ask (markerPosition host) in
  let start_mp := (mp - 1)%Z in
  (* The finger has to be drawn and extruded first; the operation
     will fail after the corners are cut, since the edge reference
     becomes invalid. *)
  run draw_finger body primary secondary in
  run (if ftruthy (offset (params self)) && negb (tab_first (inputs self))
       then draw_corner body primary secondary else ret tt) in
  run (if negb (parametric (inputs self))
       then call_modifier else ret tt) in
  (* Create a Timeline group to keep things organized *)
  let* end_mp := ask (markerPosition host) in
  let* tlgroup := call (timelineGroups_add start_mp (end_mp - 1)%Z) in
  run call (set_name tlgroup (name self +:+ " Finger Group")) in
  ret tt.

End FingerManager.

(** ** Outcomes of [duplicate] *)

Section Outcomes.
Context {F : Type} `{PyNum F}.
Variable host : Host F.
Variable self : FingerManager F.

(** The four ways a call to [duplicate] can go. *)
Inductive DuplicateRun (name : string) (features : list Handle)
    (quantity distance squantity : F) (primary secondary : option Edge)
    (s : State F) : Result Handle → list (HostCall F) → Prop :=
| dup_primary_missing :
    is_usable host (journal s) primary = false →
    DuplicateRun name features quantity distance squantity
      primary secondary s (Raise PrimaryAxisMissing) []
| dup_secondary_missing p :
    primary = Some p → isValid host (journal s) p = true →
    secondary = None →
    DuplicateRun name features quantity distance squantity
      primary secondary s (Raise AttributeError) []
| dup_two_directions p e :
    primary = Some p → isValid host (journal s) p = true →
    secondary = Some e →
    fgt0 (params_distance self) = true →
    isValid host (journal s) e = true →
    DuplicateRun name features quantity distance squantity
      primary secondary s (Ok (length (journal s)))
      [patterns_add
         (setDirectionTwo e (createByReal squantity)
            (createByReal (fsub (params_distance self)
                             (depth (params self))))
            (patterns_createInput features p (createByReal quantity)
               (createByReal distance) ExtentPatternDistanceType));
       set_name (length (journal s)) name]
| dup_one_direction p e :
    primary = Some p → isValid host (journal s) p = true →
    secondary = Some e →
    fgt0 (params_distance self) && isValid host (journal s) e = false →
    DuplicateRun name features quantity distance squantity
      primary secondary s (Ok (length (journal s) + 1))
      [messageBox
         (secondary_valid_message (isValid host (journal s) e));
       patterns_add
         (patterns_createInput features p (createByReal quantity)
            (createByReal distance) ExtentPatternDistanceType);
       set_name (length (journal s) + 1) name].

(** The input [extrude] builds. *)
Definition extrude_input (profiles : list Profile) (body : Body)
    : ExtrudeInput F :=
  set_participantBodies [body]
    (setDistanceExtent false
       (createByString
          (fstr (fneg (fabs (fmul (depth (params self)) (of_Z 10))))))
       (extrudes_createInput profiles CutFeatureOperation)).

(** The calls of [constrain_finger], by orientation of the border. *)
Definition finger_constraint_calls (vertical : bool)
    (self_finger finger : Handle) (reference : Point3D F)
    : list (HostCall F) :=
  if vertical then
    [addVertical (Drawn self_finger, bottom);
     addVertical (Drawn self_finger, top);
     addHorizontal (Drawn self_finger, left);
     addHorizontal (Drawn self_finger, right);
     addDistanceDimension (Drawn finger, bottom_left)
       (Drawn finger, top_left) VerticalDimension (text_beside reference);
     addDistanceDimension (Drawn finger, bottom_left)
       (Border, bottom_left) VerticalDimension (text_beside reference);
     addCoincident (Drawn finger, bottom_right) (ELine (Border, right));
     addCoincident (Drawn finger, top_left) (ELine (Border, left))]
  else
    [addHorizontal (Drawn self_finger, bottom);
     addHorizontal (Drawn self_finger, top);
     addVertical (Drawn self_finger, left);
     addVertical (Drawn self_finger, right);
     addDistanceDimension (Drawn finger, bottom_left)
       (Drawn finger, bottom_right) HorizontalDimension
       (text_below reference);
     addDistanceDimension (Drawn finger, bottom_left)
       (Border, bottom_left) HorizontalDimension (text_below reference);
     addCoincident (Drawn finger, bottom_left) (ELine (Border, bottom));
     addCoincident (Drawn finger, top_right) (ELine (Border, top))].

(** The calls of [constrain_horizontal_corners]. *)
Definition corner_constraint_calls (left_corner right_corner : Handle)
    (lreference rreference : Point3D F) : list (HostCall F) :=
  [addDistanceDimension (Drawn left_corner, bottom_left)
     (Drawn left_corner, bottom_right) HorizontalDimension
     (text_below lreference);
   addCoincident (Drawn left_corner, bottom_left)
     (EPoint (Border, bottom_left));
   addCoincident (Drawn left_corner, top_right) (ELine (Border, top));
   addHorizontal (Drawn left_corner, bottom);
   addHorizontal (Drawn left_corner, top);
   addVertical (Drawn left_corner, left);
   addVertical (Drawn left_corner, right);
   addDistanceDimension (Drawn right_corner, bottom_left)
     (Drawn right_corner, bottom_right) HorizontalDimension
     (text_below rreference);
   addCoincident (Drawn right_corner, bottom_left) (ELine (Border, bottom));
   addCoincident (Drawn right_corner, top_right)
     (EPoint (Border, top_right));
   addHorizontal (Drawn right_corner, bottom);
   addHorizontal (Drawn right_corner, top);
   addVertical (Drawn right_corner, left);
   addVertical (Drawn right_corner, right)].

(** The state [draw_finger] reaches when it calls [duplicate]: the
    finger is drawn, constrained and cut. *)
Definition finger_cut_state (body : Body) (s : State F) : State F :=
  let j := journal s in
  let n := length j in
  let start_ :=
    next_point host (geometry host j (Border, bottom_left))
      (start (params self)) (of_Z 0) (is_vertical host j) in
  let end_ :=
    next_point host start_ (finger_length (params self))
      (width host j) (is_vertical host j) in
  let j1 := (j ++ [addTwoPointRectangle start_ end_])%list in
  after s
    (addTwoPointRectangle start_ end_
     :: finger_constraint_calls (is_vertical host j1) n n
          (geometry host j1 (Drawn n, bottom_left))
     ++ [extrudes_add (extrude_input [profiles_item 0] body);
         set_name (n + 9) (name self +:+ " Finger Cut Extrude")])
    (<["finger_cut" := n + 9]>
       (<["offset_dimension" := n + 6]>
          (<["finger_dimension" := n + 5]>
             (<["finger" := n]> (attrs s))))).

(** The state [draw_corner] reaches when it calls [duplicate]: both
    corner rectangles are drawn and cut. *)
Definition corner_cut_state (body : Body) (s : State F) : State F :=
  let j := journal s in
  let n := length j in
  let lstart := geometry host j (Border, bottom_left) in
  let lend :=
    next_point host lstart (offset (params self))
      (width host j) (is_vertical host j) in
  let j1 := (j ++ [addTwoPointRectangle lstart lend])%list in
  let rstart :=
    next_point host (geometry host j1 (Border, bottom_right))
      (fneg (offset (params self))) (of_Z 0) (is_vertical host j1) in
  let rend :=
    next_point host rstart (offset (params self))
      (width host j1) (is_vertical host j1) in
  after s
    [addTwoPointRectangle lstart lend;
     addTwoPointRectangle rstart rend;
     extrudes_add
       (extrude_input [profiles_item 1; profiles_item 2] body);
     set_name (n + 2) (name self +:+ " Corner Cut Extrude")]
    (<["corner_cut" := n + 2]>
       (<["right_corner" := n + 1]>
          (<["left_corner" := n]> (attrs s)))).

(** The state after the corner rectangles are constrained. *)
Definition corners_constrained (left_corner right_corner : Handle)
    (s : State F) : State F :=
  let j := journal s in
  after s
    (corner_constraint_calls left_corner right_corner
       (geometry host j (Drawn left_corner, bottom_left))
       (geometry host j (Drawn right_corner, bottom_left)))
    (<["right_dimension" := length j + 7]>
       (<["left_dimension" := length j]> (attrs s))).

(** What a run of [draw] that starts in [s] may add to the document as
    a feature: cuts built by [extrude] on the selected body, and
    patterns along the manager's reference line whose second direction,
    if any, is the perpendicular edge found at the start. *)
Definition feature_of_the_run (s : State F) (c : HostCall F) : Prop :=
  match c with
  | extrudes_add input =>
      ∃ profiles,
        input = extrude_input profiles (selected_body (inputs self))
  | patterns_add input =>
      reference_line self = Some (pat_directionOne input)
      ∧ pat_distanceType input = ExtentPatternDistanceType
      ∧ ∀ e quantity distance,
          pat_directionTwo input = Some (e, quantity, distance) →
          perpendicular_edge host (journal s) = Some e
          ∧ distance = createByReal (fsub (params_distance self)
                                       (depth (params self)))
  | _ => True
  end.

(** The last steps of [draw]: the modifier, unless the inputs are
    parametric, then the timeline group. *)
Inductive Closing (start_mp : Z) (s : State F) : State F → Prop :=
| closing_literal :
    parametric (inputs self) = true →
    Closing start_mp s
      (after s
         [timelineGroups_add start_mp
            (markerPosition host (journal s) - 1);
          set_name (length (journal s))
            (name self +:+ " Finger Group")]
         (attrs s))
| closing_modified args :
    parametric (inputs self) = false →
    modifier_args self (attrs s) = Some args →
    Closing start_mp s
      (after s
         [modifier args;
          timelineGroups_add start_mp
            (markerPosition host (journal s ++ [modifier args])%list - 1);
          set_name (length (journal s) + 1)
            (name self +:+ " Finger Group")]
         (attrs s)).

(** The ways a run of [draw] can go. *)
Inductive DrawRun (s : State F) : Result unit → State F → Prop :=
| draw_finger_pattern_failed e des :
    let s1 := finger_cut_state (selected_body (inputs self)) s in
    DuplicateRun (name self +:+ " Finger Duplicate Pattern")
      [length (journal s) + 9]
      (notches (params self)) (pattern_distance (params self))
      (fadd (interior_value (inputs self)) (of_Z 2))
      (reference_line self) (perpendicular_edge host (journal s))
      s1 (Raise e) des →
    DrawRun s (Raise e) s1
| draw_without_corners h des s' :
    let s1 := finger_cut_state (selected_body (inputs self)) s in
    DuplicateRun (name self +:+ " Finger Duplicate Pattern")
      [length (journal s) + 9]
      (notches (params self)) (pattern_distance (params self))
      (fadd (interior_value (inputs self)) (of_Z 2))
      (reference_line self) (perpendicular_edge host (journal s))
      s1 (Ok h) des →
    ftruthy (offset (params self)) && negb (tab_first (inputs self))
      = false →
    Closing (markerPosition host (journal s) - 1)
      (after s1 des (<["finger_pattern" := h]> (attrs s1))) s' →
    DrawRun s (Ok tt) s'
| draw_corner_pattern_failed h des e des' :
    let s1 := finger_cut_state (selected_body (inputs self)) s in
    let s2 := after s1 des (<["finger_pattern" := h]> (attrs s1)) in
    let s3 := corner_cut_state (selected_body (inputs self)) s2 in
    DuplicateRun (name self +:+ " Finger Duplicate Pattern")
      [length (journal s) + 9]
      (notches (params self)) (pattern_distance (params self))
      (fadd (interior_value (inputs self)) (of_Z 2))
      (reference_line self) (perpendicular_edge host (journal s))
      s1 (Ok h) des →
    ftruthy (offset (params self)) && negb (tab_first (inputs self))
      = true →
    DuplicateRun (name self +:+ " Corner Duplicate Pattern")
      [length (journal s2) + 2] (of_Z 1) (of_Z 0) (of_Z 2)
      (reference_line self) (perpendicular_edge host (journal s))
      s3 (Raise e) des' →
    DrawRun s (Raise e) s3
| draw_with_corners h des h' des' s' :
    let s1 := finger_cut_state (selected_body (inputs self)) s in
    let s2 := after s1 des (<["finger_pattern" := h]> (attrs s1)) in
    let s3 := corner_cut_state (selected_body (inputs self)) s2 in
    let s4 := after s3 des' (<["corner_pattern" := h']> (attrs s3)) in
    DuplicateRun (name self +:+ " Finger Duplicate Pattern")
      [length (journal s) + 9]
      (notches (params self)) (pattern_distance (params self))
      (fadd (interior_value (inputs self)) (of_Z 2))
      (reference_line self) (perpendicular_edge host (journal s))
      s1 (Ok h) des →
    ftruthy (offset (params self)) && negb (tab_first (inputs self))
      = true →
    DuplicateRun (name self +:+ " Corner Duplicate Pattern")
      [length (journal s2) + 2] (of_Z 1) (of_Z 0) (of_Z 2)
      (reference_line self) (perpendicular_edge host (journal s))
      s3 (Ok h') des' →
    Closing (markerPosition host (journal s) - 1)
      (corners_constrained (length (journal s2))
         (length (journal s2) + 1) s4) s' →
    DrawRun s (Ok tt) s'.

End Outcomes.

(** ** [Sketch]

    [Sketch.__init__] works on the line collection of the sketch it
    creates.  The collection is live: a slice taken from it holds the
    line objects themselves, so marking a sliced line marks the line in
    the sketch.  A line is named by its position in the collection. *)

Module Sketch.

Inductive Origin :=
| face_outline (f : Face) (i : nat)    (* drawn by the host for the face *)
| projected (e : Edge) (i : nat).      (* drawn by [sketch.project(e)] *)

Record SketchLine := {
  origin : Origin;
  isConstruction : bool
}.

Record BRepFace := {
  brepface : Face;
  edges : list Edge
}.

(** What the host draws: the lines a new sketch on a face starts with,
    and the lines one projection adds at the end of the collection. *)
Record Host := {
  sketches_add : Face → list SketchLine;
  project : Edge → list SketchLine
}.

(** Modelled from the spec: the rectangle helper [Rectangle(sketch,
    lines, construction=True)] of [rectangle.py], which is not among the
    source files.  It tracks the lines it is given and, as the comment
    at its first use in [Sketch.__init__] says, changes them into
    construction lines.  [reference_points] and [reference_line] are
    attributes derived from the tracked lines. *)
Record Rectangle := { tracked : list nat }.

Inductive Reference :=
| reference_points_of (r : Rectangle)
| reference_line_of (r : Rectangle)
| referencePlane (sketch_on : Face).

Definition construct (l : SketchLine) : SketchLine :=
  {| origin := origin l; isConstruction := true |}.

Definition Rectangle_init (lines : list nat) (construction : bool)
    (doc : list SketchLine) : Rectangle * list SketchLine :=
  ({| tracked := lines |},
   if construction
   then foldl (λ d i, alter construct i d) doc lines
   else doc).

(** [lines[a:b]] on a collection of the given length. *)
Definition slice (a b len : nat) : list nat :=
  seq a (Nat.min b len - a).

Record Sketch := {
  face : BRepFace;
  sketch_face : Face;          (* the face [self.sketch] was added on *)
  sketch_name : string;
  lines : list SketchLine;     (* [self.lines], the live collection *)
  face_lines : Rectangle;
  border : Rectangle;
  reference_points : Reference;
  reference_plane : Reference;
  reference_line : Reference
}.

Section Init.
Variable host : Host.

Definition init (name : string) (face : BRepFace) : Sketch :=
  let doc := sketches_add host (brepface face) in
  let '(face_lines, doc) :=
    Rectangle_init (slice 0 4 (List.length doc)) true doc in
  let doc :=
    foldl (λ d line, (d ++ project host line)%list) doc
      (take 4 (edges face)) in
  let '(border, doc) :=
    Rectangle_init (slice 4 8 (List.length doc)) true doc in
  {| face := face;
     sketch_face := brepface face;
     sketch_name := name;
     lines := doc;
     face_lines := face_lines;
     border := border;
     reference_points := reference_points_of border;
     reference_plane := referencePlane (brepface face);
     reference_line := reference_line_of border |}.

End Init.

(** [Sketch.offset_point]; [is_vertical] is [self.border.is_vertical],
    a property of the rectangle helper. *)
Definition offset_point {F} `{PyNum F} (is_vertical : bool)
    (point : Point3D F) (length width : F) : Point3D F :=
  let '(xoffset, yoffset) :=
    if is_vertical then (width, length) else (length, width) in
  Point3D_create (fadd (px point) xoffset) (fadd (py point) yoffset)
    (pz point).

(** The [name] property reads and writes the name of the face the
    sketch is on ([self.face.brepface.name]), an attribute of the host's
    face object, given here as the host's map from faces to names; it is
    not the name [__init__] gives the host sketch. *)
Definition name (names : Face → string) (self : Sketch) : string :=
  names (brepface (face self)).

Definition name_setter (value : string) (self : Sketch)
    (names : Face → string) : Face → string :=
  λ f, if Nat.eqb f (brepface (face self)) then value else names f.

(** *** Drawing on the sketch

    [draw_rectangle] and [draw_margin] issue calls on the host sketch;
    they are journalled in order, and a host object is named by the
    position of the call that returned it.  The border's [width] and
    [is_vertical] are attributes of the rectangle helper, read before
    the first call is made. *)

Inductive PointRef :=
| rect_point (p : SketchPoint)            (* [rectangle.corner.point] *)
| startSketchPoint (line : Handle).       (* [line.startSketchPoint] *)

Inductive Call (F : Type) :=
| Rectangle_draw (point opposite : Point3D F) (bottom top : option Line)
    (reference : SketchPoint)
| addByTwoPoints (point end_point : Point3D F)
| set_isConstruction (line : Handle) (value : bool)
| addDistanceDimension (a b : PointRef) (o : DimensionOrientation)
    (text : Point3D F)
| addPerpendicular (a : Line) (b : Handle).
Arguments Rectangle_draw {F} _ _ _ _ _.
Arguments addByTwoPoints {F} _ _.
Arguments set_isConstruction {F} _ _.
Arguments addDistanceDimension {F} _ _ _ _.
Arguments addPerpendicular {F} _ _.

Record Drawing (F : Type) := {
  calls : list (Call F);
  margin_dimension : option Handle     (* [self.margin_dimension] *)
}.
Arguments calls {F} _.
Arguments margin_dimension {F} _.

Section Drawing.
Context {F : Type} `{PyNum F}.
(** [self.border.is_vertical] and [self.border.width]. *)
Variable is_vertical : bool.
Variable width : F.

Definition draw_rectangle (point : Point3D F) (length : F)
    (constrain : bool) (d : Drawing F) : Handle * Drawing F :=
  let rectangle := List.length (calls d) in
  (rectangle,
   {| calls :=
        (calls d
         ++ [Rectangle_draw point
               (offset_point is_vertical point length width)
               (if constrain then Some (Border, bottom) else None)
               (if constrain then Some (Border, top) else None)
               (Border, bottom_left)])%list;
      margin_dimension := margin_dimension d |}).


End Drawing.

End Sketch.

(** ** A concrete host

    Exact rationals stand in for Python's numbers, and a small host
    answers the reads, so that the script can be run. *)

Module Example.

(** [str] of a rational: integers print as Python prints an integral
    float, anything else as a fraction. *)
Definition Q_str (q : Q) : string :=
  let q := Qred q in
  match Qden q with
  | 1%positive => pretty (Qnum q) +:+ ".0"
  | d => pretty (Qnum q) +:+ "/" +:+ pretty (Zpos d)
  end.

#[export] Instance Q_PyNum : PyNum Q := {|
  fadd := Qplus;
  fsub := Qminus;
  fmul := Qmult;
  fneg := Qopp;
  fabs := Qabs.Qabs;
  fgt0 := λ x, negb (Qle_bool x 0);
  ftruthy := λ x, negb (Qeq_bool x 0);
  of_Z := inject_Z;
  half := 1 # 2;
  fstr := Q_str
|}.

(** A host whose edge validity is given, together with the border's
    orientation and the secondary axis it finds.  The border is ten
    wide and one high, [next_point] offsets as [Sketch.offset_point]
    does, and the timeline marker follows the journal. *)
Definition host (valid : Journal Q → Edge → bool) (vertical : bool)
    (secondary : option Edge) : Host Q :=
  {| isValid := valid;
     geometry := λ _ p,
       match p with
       | (Border, bottom_right) => Point3D_create 10 0 0
       | (Border, top_left) => Point3D_create 0 1 0
       | (Border, top_right) => Point3D_create 10 1 0
       | _ => Point3D_create 0 0 0
       end%Q;
     markerPosition := λ j, (Z.of_nat (List.length j) + 1)%Z;
     is_vertical := λ _, vertical;
     width := λ _, 1%Q;
     perpendicular_edge := λ _, secondary;
     next_point := λ p l w v, Sketch.offset_point v p l w |}.

Definition always_valid : Journal Q → Edge → bool := λ _ _, true.
Definition never_valid : Journal Q → Edge → bool := λ _ _, false.

(** Valid while fewer than [n] extrude cuts are in the document. *)
Definition valid_before_cut (n : nat) : Journal Q → Edge → bool :=
  λ j _,
    Nat.ltb
      (List.length
         (List.filter
            (λ c, match c with extrudes_add _ => true | _ => false end) j))
      n.

Definition fingers (offset_ : Q) (tab_first_ parametric_ : bool)
    (primary : option Edge) : FingerManager Q :=
  {| inputs := {| selected_face := 7; selected_body := 3;
                  finger_type := automaticWidthId;
                  tab_first := tab_first_; parametric := parametric_;
                  interior_value := 0%Q |};
     alias := "a"; name := "Front";
     params := {| start := 1%Q; finger_length := 2%Q; notches := 3%Q;
                  pattern_distance := 8%Q; offset := offset_;
                  depth := 1 # 2; distance := 5%Q |};
     reference_line := primary |}.

Definition fresh : State Q := {| journal := []; attrs := ∅ |}.

(** Three hosts: one that keeps every edge reference valid, the same
    with an upright border, and one that loses its edge references with
    the first cut. *)
Definition steady : Host Q := host always_valid false (Some 2).
Definition upright : Host Q := host always_valid true (Some 2).
Definition fragile : Host Q := host (valid_before_cut 1) false (Some 2).

(** A host that holds the primary axis (edge 1) valid and no other
    edge. *)
Definition lopsided : Host Q := host (λ _ e, Nat.eqb e 1) false (Some 2).

(** A joint with corner notches whose values the modifier rewrites. *)
Definition front : FingerManager Q := fingers 1 false false (Some 1).

(** The same joint with no distance to a second face. *)
Definition shallow : FingerManager Q :=
  {| inputs := inputs front; alias := alias front; name := name front;
     params := {| start := 1%Q; finger_length := 2%Q; notches := 3%Q;
                  pattern_distance := 8%Q; offset := 1%Q;
                  depth := 1 # 2; distance := 0%Q |};
     reference_line := reference_line front |}.

(** The manager once the finger rectangle is drawn. *)
Definition finger_drawn : State Q :=
  {| journal :=
       [addTwoPointRectangle (Point3D_create 1 0 0)%Q
          (Point3D_create 3 1 0)%Q];
     attrs := {["finger" := 0]} |}.

(** A host that starts a sketch with the four outline lines of the
    face and draws one line for every projected edge. *)
Definition sketch_host : Sketch.Host :=
  {| Sketch.sketches_add := λ f,
       (λ i, {| Sketch.origin := Sketch.face_outline f i;
                Sketch.isConstruction := false |}) <$> seq 0 4;
     Sketch.project := λ e,
       [{| Sketch.origin := Sketch.projected e 0;
           Sketch.isConstruction := false |}] |}.

Definition square : Sketch.BRepFace :=
  {| Sketch.brepface := 7; Sketch.edges := [10; 11; 12; 13] |}.


End Example.

(** * Properties *)

(** ** Stepping through a run *)

Section Stepping.
Context {F : Type}.

Lemma after_after (s : State F) es a es' a' :
  after (after s es a) es' a' = after s (es ++ es') a'.
Proof. unfold after; cbn. by rewrite <- app_assoc. Qed.

Lemma after_nil (s : State F) : after s [] (attrs s) = s.
Proof. destruct s; unfold after; cbn. by rewrite app_nil_r. Qed.

Lemma after_inj (s : State F) es a es' a' :
  after s es a = after s es' a' → es = es' ∧ a = a'.
Proof.
  unfold after; intros E. injection E as E1 E2.
  split; [by apply app_inv_head in E1 | done].
Qed.

Lemma bind_Ok {A B} (c : M F A) (k : A → M F B) s a s' :
  c s = (Ok a, s') → bind c k s = k a s'.
Proof. unfold bind; by intros ->. Qed.

Lemma bind_Raise {A B} (c : M F A) (k : A → M F B) s e s' :
  c s = (Raise e, s') → bind c k s = (Raise e, s').
Proof. unfold bind; by intros ->. Qed.

End Stepping.

(** Evaluate the primitive steps of a run and bring the journal back to
    the form [journal s ++ calls]. *)
Ltac simp_run :=
  unfold bind, ask, call, getattr, getattr_default, setattr, ret, raise;
  cbn;
  rewrite ?length_app; cbn;
  rewrite <- ?app_assoc; cbn;
  rewrite <- ?Nat.add_assoc; cbn.

(** ** [extrude] and [duplicate] *)

Section Features.
Context {F : Type} `{PyNum F}.
Variable host : Host F.
Variable self : FingerManager F.

Lemma extrude_run profiles body name s :
  extrude self profiles body name s =
    (Ok (length (journal s)),
     after s
       [extrudes_add (extrude_input self profiles body);
        set_name (length (journal s)) name]
       (attrs s)).
Proof. unfold extrude, after. simp_run. reflexivity. Qed.

Lemma duplicate_run name features quantity distance squantity
    primary secondary body s :
  ∃ r es,
    duplicate host self name features quantity distance squantity
      primary secondary body s = (r, after s es (attrs s))
    ∧ DuplicateRun host self name features quantity distance squantity
        primary secondary s r es.
Proof.
  unfold duplicate, usable.
  destruct primary as [p|]; simp_run.
  2: { exists (Raise PrimaryAxisMissing), []. rewrite after_nil.
       split; [done | by constructor]. }
  destruct (isValid host (journal s) p) eqn:Hp; simp_run.
  2: { exists (Raise PrimaryAxisMissing), []. rewrite after_nil.
       split; [done | by constructor]. }
  destruct secondary as [e|].
  2: { destruct (fgt0 (params_distance self)); simp_run;
       exists (Raise AttributeError), []; rewrite after_nil;
       (split; [done | by econstructor]). }
  destruct (fgt0 (params_distance self)) eqn:Hd; simp_run.
  - destruct (isValid host (journal s) e) eqn:He; simp_run.
    + eexists _, _. split; [reflexivity |]. by eapply dup_two_directions.
    + eexists _, _. split; [reflexivity |].
      eapply dup_one_direction; eauto. by rewrite Hd, He.
  - eexists _, _. split; [reflexivity |].
    eapply dup_one_direction; eauto. by rewrite Hd.
Qed.

(** C1.  A call to [duplicate] raises [PrimaryAxisMissing] exactly
    when the primary axis reference is missing or the host no longer
    holds it valid; with a valid primary axis that exception is never
    raised. *)
Theorem duplicate_raises_PrimaryAxisMissing_iff name features quantity
    distance squantity primary secondary body s :
  fst (duplicate host self name features quantity distance squantity
         primary secondary body s) = Raise PrimaryAxisMissing
  ↔ primary = None
    ∨ ∃ p, primary = Some p ∧ isValid host (journal s) p = false.
Proof.
  destruct (duplicate_run name features quantity distance squantity
              primary secondary body s) as (r & es & -> & R).
  cbn. split.
  - intros ->. inversion R as [Hu| | |]; try discriminate Hu.
    destruct primary as [p|]; [right | by left].
    exists p. by split.
  - intros Hp. inversion R as [|p ? Hv|p e ? Hv|p e ? Hv]; subst;
      [done | exfalso..];
      (destruct Hp as [Hp | (p' & Hp & Hv')];
       [discriminate Hp | injection Hp as <-; congruence]).
Qed.

(** C5 (X15).  With a usable primary axis, a secondary axis reference that
    is present but invalid makes [duplicate] show the message box
    ['secondary valid: False']; the call still returns the pattern, and
    the pattern input it adds has no second direction.  Whenever an
    added pattern input has a second direction, the secondary reference
    is present and valid. *)
Theorem duplicate_invalid_secondary_is_reported name features quantity
    distance squantity p secondary body s :
  isValid host (journal s) p = true →
  (∀ e, secondary = Some e → isValid host (journal s) e = false →
     ∃ input,
       duplicate host self name features quantity distance squantity
         (Some p) secondary body s =
         (Ok (length (journal s) + 1),
          after s
            [messageBox "secondary valid: False";
             patterns_add input;
             set_name (length (journal s) + 1) name]
            (attrs s))
       ∧ pat_directionTwo input = None)
  ∧ (∀ r es a input,
       duplicate host self name features quantity distance squantity
         (Some p) secondary body s = (r, after s es a) →
       patterns_add input ∈ es →
       is_Some (pat_directionTwo input) →
       ∃ e, secondary = Some e ∧ isValid host (journal s) e = true).
Proof.
  intros Hp.
  destruct (duplicate_run name features quantity distance squantity
              (Some p) secondary body s) as (r & es & E & R).
  split.
  - intros e -> He. rewrite E.
    inversion R; simplify_eq/=; try congruence.
    rewrite He. eexists. split; [reflexivity | done].
  - intros r' es' a input E' Hin Htwo. rewrite E in E'.
    injection E' as <- Ej _. apply app_inv_head in Ej as <-.
    inversion R; simplify_eq/=; try congruence.
    + by apply elem_of_nil in Hin.
    + eauto.
    + exfalso. rewrite !elem_of_cons in Hin.
      destruct Hin as [Hin|[Hin|[Hin|Hin]]]; try discriminate Hin.
      * injection Hin as ->. by destruct Htwo.
      * by apply elem_of_nil in Hin.
Qed.

(** C10 (X16).  With a usable primary axis, [duplicate] ends in an
    [AttributeError] exactly when the secondary axis reference is
    absent: the else branch reads [secondary.isValid] on [None], so
    nothing is journalled, no message box is shown and no pattern is
    added.  This includes the inputs with [params.distance > 0]. *)
Theorem duplicate_without_secondary_fails name features quantity
    distance squantity p secondary body s :
  isValid host (journal s) p = true →
  (fst (duplicate host self name features quantity distance squantity
          (Some p) secondary body s) = Raise AttributeError
   ↔ secondary = None)
  ∧ (secondary = None →
     duplicate host self name features quantity distance squantity
       (Some p) secondary body s = (Raise AttributeError, s)).
Proof.
  intros Hp.
  destruct (duplicate_run name features quantity distance squantity
              (Some p) secondary body s) as (r & es & E & R).
  rewrite E; cbn.
  inversion R; simplify_eq/=; try congruence.
  - rewrite after_nil. by repeat split.
  - repeat split; intros; discriminate.
  - repeat split; intros; discriminate.
Qed.

(** C6, as the code has it (X17).  Every call to [extrude] adds one extrude
    feature: a cut of the given profiles with the given body as the
    only participant, whose extent is the one-sided finite distance
    [-abs(depth * 10)], passed as a string.  The extent is never the
    host's through-all extent. *)
Theorem extrude_cuts_a_finite_distance profiles body name s :
  ∃ input,
    extrude self profiles body name s =
      (Ok (length (journal s)),
       after s [extrudes_add input; set_name (length (journal s)) name]
         (attrs s))
    ∧ ex_profiles input = profiles
    ∧ ex_operation input = CutFeatureOperation
    ∧ ex_participantBodies input = [body]
    ∧ ex_extent input =
        Some (DistanceExtent false
                (createByString
                   (fstr (fneg (fabs (fmul (depth (params self))
                                        (of_Z 10)))))))
    ∧ ∀ direction, ex_extent input ≠ Some (AllExtent direction).
Proof.
  eexists. split; [apply extrude_run |]. cbn. by repeat split.
Qed.

End Features.

(** ** Constraining the rectangles *)

Section Constraints.
Context {F : Type} `{PyNum F}.
Variable host : Host F.
Variable self : FingerManager F.

Lemma constrain_finger_run finger f s :
  attrs s !! "finger" = Some f →
  constrain_finger host finger s =
    (Ok tt,
     after s
       (finger_constraint_calls (is_vertical host (journal s)) f finger
          (geometry host (journal s) (Drawn finger, bottom_left)))
       (<["offset_dimension" := length (journal s) + 5]>
          (<["finger_dimension" := length (journal s) + 4]> (attrs s)))).
Proof.
  intros Hf. unfold constrain_finger, after. simp_run. rewrite Hf.
  destruct (is_vertical host (journal s)); simp_run; reflexivity.
Qed.

Lemma finger_constraint_calls_phases vertical f finger reference :
  phase <$> finger_constraint_calls (F:=F) vertical f finger reference
  = replicate 8 Constrain.
Proof. by destruct vertical. Qed.

Lemma finger_constraint_calls_length vertical f finger reference :
  length (finger_constraint_calls (F:=F) vertical f finger reference) = 8.
Proof. by destruct vertical. Qed.

Lemma constrain_horizontal_corners_run left_corner right_corner s :
  constrain_horizontal_corners host left_corner right_corner s =
    (Ok tt, corners_constrained host left_corner right_corner s).
Proof.
  unfold constrain_horizontal_corners, corners_constrained, after.
  simp_run. reflexivity.
Qed.

Lemma constrain_vertical_corners_run left_corner right_corner s :
  constrain_vertical_corners host left_corner right_corner s =
    (Ok tt, corners_constrained host left_corner right_corner s).
Proof.
  unfold constrain_vertical_corners, corners_constrained, after.
  simp_run. reflexivity.
Qed.

End Constraints.

(** ** Runs of [draw] *)

Arguments duplicate : simpl never.
Arguments extrude : simpl never.
Arguments constrain_finger : simpl never.
Arguments constrain_horizontal_corners : simpl never.
Arguments constrain_vertical_corners : simpl never.
Arguments draw_finger : simpl never.
Arguments draw_corner : simpl never.
Arguments call_modifier : simpl never.

Section Runs.
Context {F : Type} `{PyNum F}.
Variable host : Host F.
Variable self : FingerManager F.

Lemma draw_finger_unfold body primary secondary s :
  draw_finger host self body primary secondary s =
    match
      duplicate host self (name self +:+ " Finger Duplicate Pattern")
        [length (journal s) + 9]
        (notches (params self)) (pattern_distance (params self))
        (fadd (interior_value (inputs self)) (of_Z 2))
        primary secondary body (finger_cut_state host self body s)
    with
    | (Ok h, s') =>
        (Ok tt, after s' [] (<["finger_pattern" := h]> (attrs s')))
    | (Raise e, s') => (Raise e, s')
    end.
Proof.
  unfold draw_finger, finger_cut_state, after. simp_run.
  rewrite lookup_insert_eq. simp_run.
  erewrite constrain_finger_run by (cbn; apply lookup_insert_eq).
  unfold after. simp_run.
  rewrite extrude_run. unfold after. simp_run.
  rewrite lookup_insert_eq. simp_run.
  rewrite finger_constraint_calls_length. simp_run.
  destruct (duplicate _ _ _ _ _ _ _ _ _ _ _) as [[h|e] s']; cbn;
    rewrite ?app_nil_r; reflexivity.
Qed.

Lemma draw_finger_run body primary secondary s :
  let s1 := finger_cut_state host self body s in
  ∃ r des,
    DuplicateRun host self (name self +:+ " Finger Duplicate Pattern")
      [length (journal s) + 9]
      (notches (params self)) (pattern_distance (params self))
      (fadd (interior_value (inputs self)) (of_Z 2))
      primary secondary s1 r des
    ∧ draw_finger host self body primary secondary s =
        match r with
        | Ok h =>
            (Ok tt, after s1 des (<["finger_pattern" := h]> (attrs s1)))
        | Raise e => (Raise e, s1)
        end.
Proof.
  intros s1.
  destruct (duplicate_run host self
              (name self +:+ " Finger Duplicate Pattern")
              [length (journal s) + 9]
              (notches (params self)) (pattern_distance (params self))
              (fadd (interior_value (inputs self)) (of_Z 2))
              primary secondary body s1) as (r & des & E & R).
  exists r, des. split; [done |].
  rewrite draw_finger_unfold. fold s1. rewrite E.
  destruct r.
  - by rewrite after_after, app_nil_r.
  - inversion R; subst; by rewrite after_nil.
Qed.

Lemma draw_corner_unfold body primary secondary s :
  draw_corner host self body primary secondary s =
    match
      duplicate host self (name self +:+ " Corner Duplicate Pattern")
        [length (journal s) + 2] (of_Z 1) (of_Z 0) (of_Z 2)
        primary secondary body (corner_cut_state host self body s)
    with
    | (Ok h, s') =>
        (let* vertical := ask (is_vertical host) in
         let* left_corner := getattr "left_corner" in
         let* right_corner := getattr "right_corner" in
         if vertical
         then constrain_vertical_corners host left_corner right_corner
         else constrain_horizontal_corners host left_corner right_corner)
          (after s' [] (<["corner_pattern" := h]> (attrs s')))
    | (Raise e, s') => (Raise e, s')
    end.
Proof.
  unfold draw_corner, draw_left_corner, draw_right_corner,
    corner_cut_state, after. simp_run.
  rewrite extrude_run. unfold after. simp_run.
  rewrite lookup_insert_eq. simp_run.
  destruct (duplicate _ _ _ _ _ _ _ _ _ _ _) as [[h|e] s']; cbn;
    rewrite ?app_nil_r; reflexivity.
Qed.

Lemma draw_corner_run body primary secondary s :
  let s3 := corner_cut_state host self body s in
  ∃ r des,
    DuplicateRun host self (name self +:+ " Corner Duplicate Pattern")
      [length (journal s) + 2] (of_Z 1) (of_Z 0) (of_Z 2)
      primary secondary s3 r des
    ∧ draw_corner host self body primary secondary s =
        match r with
        | Ok h =>
            (Ok tt,
             corners_constrained host (length (journal s))
               (length (journal s) + 1)
               (after s3 des (<["corner_pattern" := h]> (attrs s3))))
        | Raise e => (Raise e, s3)
        end.
Proof.
  intros s3.
  destruct (duplicate_run host self
              (name self +:+ " Corner Duplicate Pattern")
              [length (journal s) + 2] (of_Z 1) (of_Z 0) (of_Z 2)
              primary secondary body s3) as (r & des & E & R).
  exists r, des. split; [done |].
  rewrite draw_corner_unfold. fold s3. rewrite E.
  destruct r.
  - rewrite after_after, app_nil_r.
    unfold s3, corner_cut_state, after at 2 3. simp_run.
    rewrite lookup_insert_ne by done.
    rewrite lookup_insert_ne by done.
    rewrite lookup_insert_ne by done.
    rewrite lookup_insert_eq. simp_run.
    rewrite lookup_insert_ne by done.
    rewrite lookup_insert_ne by done.
    rewrite lookup_insert_eq. simp_run.
    destruct (is_vertical host _).
    + by rewrite constrain_vertical_corners_run.
    + by rewrite constrain_horizontal_corners_run.
  - inversion R; subst; by rewrite after_nil.
Qed.

Lemma closing_run start_mp s :
  (parametric (inputs self) = false →
   is_Some (modifier_args self (attrs s))) →
  ∃ s',
    Closing host self start_mp s s'
    ∧ (run (if negb (parametric (inputs self))
            then call_modifier self else ret tt) in
       let* end_mp := ask (markerPosition host) in
       let* tlgroup := call (timelineGroups_add start_mp (end_mp - 1)%Z) in
       run call (set_name tlgroup (name self +:+ " Finger Group")) in
       ret tt) s = (Ok tt, s').
Proof.
  intros Hargs. destruct (parametric (inputs self)) eqn:Hp.
  - eexists. split; [by apply closing_literal |].
    unfold after. simp_run. reflexivity.
  - destruct Hargs as [args Hargs]; [done |].
    eexists. split; [by eapply closing_modified |].
    unfold call_modifier, after. simp_run. rewrite Hargs. simp_run.
    reflexivity.
Qed.

Lemma modifier_args_Some (a : gmap string Handle) fd od fc fp :
  a !! "finger_dimension" = Some fd →
  a !! "offset_dimension" = Some od →
  a !! "finger_cut" = Some fc →
  a !! "finger_pattern" = Some fp →
  modifier_args self a =
    Some {| m_kind := finger_type (inputs self);
            m_alias := alias self;
            m_finger_dimension := fd;
            m_offset_dimension := od;
            m_finger_cut := fc;
            m_finger_pattern := fp;
            m_corner_cut := a !! "corner_cut";
            m_corner_pattern := a !! "corner_pattern";
            m_left_dimension := a !! "left_dimension";
            m_right_dimension := a !! "right_dimension" |}.
Proof.
  intros H1 H2 H3 H4. unfold modifier_args.
  by rewrite H1, H2, H3, H4.
Qed.

(** The attributes once the finger pattern is kept. *)
Lemma finger_attrs body s h :
  let a := <["finger_pattern" := h]>
             (attrs (finger_cut_state host self body s)) in
  a !! "finger_dimension" = Some (length (journal s) + 5)
  ∧ a !! "offset_dimension" = Some (length (journal s) + 6)
  ∧ a !! "finger_cut" = Some (length (journal s) + 9)
  ∧ a !! "finger_pattern" = Some h.
Proof.
  unfold finger_cut_state, after; cbn. by simplify_map_eq.
Qed.

Theorem draw_run s :
  ∃ r s', draw host self s = (r, s') ∧ DrawRun host self s r s'.
Proof.
  unfold draw.
  erewrite bind_Ok by reflexivity.
  erewrite bind_Ok by reflexivity.
  destruct (draw_finger_run (selected_body (inputs self))
              (reference_line self) (perpendicular_edge host (journal s)) s)
    as (r & des & R & E).
  destruct r as [h|e].
  2: { erewrite bind_Raise by exact E.
       eexists _, _. split; [reflexivity |].
       by eapply draw_finger_pattern_failed. }
  erewrite bind_Ok by exact E.
  set (s1 := finger_cut_state host self (selected_body (inputs self)) s)
    in *.
  set (s2 := after s1 des (<["finger_pattern" := h]> (attrs s1))).
  destruct (finger_attrs (selected_body (inputs self)) s h)
    as (A1 & A2 & A3 & A4).
  destruct (ftruthy (offset (params self))
            && negb (tab_first (inputs self))) eqn:Hc.
  - destruct (draw_corner_run (selected_body (inputs self))
                (reference_line self)
                (perpendicular_edge host (journal s)) s2)
      as (r' & des' & R' & E').
    destruct r' as [h'|e'].
    2: { erewrite bind_Raise by exact E'.
         eexists _, _. split; [reflexivity |].
         by eapply draw_corner_pattern_failed. }
    erewrite bind_Ok by exact E'.
    edestruct (closing_run (markerPosition host (journal s) - 1)%Z)
      as (s' & C & ->).
    2: { eexists _, _. split; [reflexivity |].
         by eapply draw_with_corners. }
    intros _.
    rewrite (modifier_args_Some _ (length (journal s) + 5)
               (length (journal s) + 6) (length (journal s) + 9) h);
      [done | ..];
      unfold corners_constrained, corner_cut_state, s2, s1,
        finger_cut_state, after; cbn; by simplify_map_eq.
  - erewrite bind_Ok by reflexivity.
    edestruct (closing_run (markerPosition host (journal s) - 1)%Z)
      as (s' & C & ->).
    2: { eexists _, _. split; [reflexivity |].
         by eapply draw_without_corners. }
    intros _. erewrite modifier_args_Some; [done | ..]; cbn; eauto.
Qed.

Lemma journalled_after (s : State F) es a :
  journalled s (after s es a) (phase <$> es).
Proof. by exists es. Qed.

Lemma journalled_trans (s s' s'' : State F) ps ps' :
  journalled s s' ps → journalled s' s'' ps' →
  journalled s s'' (ps ++ ps')%list.
Proof.
  intros (es & E & <-) (es' & E' & <-). exists (es ++ es')%list.
  split; [by rewrite E', E, app_assoc | by rewrite fmap_app].
Qed.

Lemma finger_cut_state_journalled body s :
  journalled s (finger_cut_state host self body s) finger_cut_phases.
Proof.
  eexists. split; [reflexivity |].
  by rewrite fmap_cons, fmap_app, finger_constraint_calls_phases.
Qed.

Lemma corner_cut_state_journalled body s :
  journalled s (corner_cut_state host self body s)
    [Draw; Draw; Extrude; Rename].
Proof. eexists. split; reflexivity. Qed.

Lemma corners_constrained_journalled left_corner right_corner s :
  journalled s (corners_constrained host left_corner right_corner s)
    (replicate 14 Constrain).
Proof. eexists. split; reflexivity. Qed.

Lemma duplicate_run_journalled name features quantity distance squantity
    primary secondary s h des a :
  DuplicateRun host self name features quantity distance squantity
    primary secondary s (Ok h) des →
  ∃ message, journalled s (after s des a) (pattern_phases message).
Proof.
  inversion 1; subst.
  - exists false. eexists. split; reflexivity.
  - exists true. eexists. split; reflexivity.
Qed.

Lemma duplicate_run_raises name features quantity distance squantity
    primary secondary s e des :
  DuplicateRun host self name features quantity distance squantity
    primary secondary s (Raise e) des →
  des = [].
Proof. by inversion 1. Qed.

Lemma closing_journalled start_mp s s' :
  Closing host self start_mp s s' →
  journalled s s'
    ((if negb (parametric (inputs self)) then [Modify] else [])
     ++ [Group; Rename]).
Proof.
  inversion 1 as [Hp|args Hp Hargs]; rewrite Hp;
    eexists; split; reflexivity.
Qed.

(** The journal of a run, by the way the run went. *)
Lemma draw_run_journalled s r s' :
  DrawRun host self s r s' →
  ∃ message message',
    match r with
    | Ok _ =>
        journalled s s'
          (draw_phases message
             (ftruthy (offset (params self))
              && negb (tab_first (inputs self)))
             message' (negb (parametric (inputs self))))
    | Raise _ =>
        journalled s s' finger_cut_phases
        ∨ (ftruthy (offset (params self))
           && negb (tab_first (inputs self)) = true
           ∧ journalled s s'
               (finger_cut_phases ++ pattern_phases message
                ++ [Draw; Draw; Extrude; Rename]))
    end.
Proof.
  inversion 1 as [e des s1 R|h des s'' s1 R Hc C
                 |h des e des' s1 s2 s3 R Hc R'
                 |h des h' des' s'' s1 s2 s3 s4 R Hc R' C]; subst.
  - exists false, false. left. apply finger_cut_state_journalled.
  - eapply duplicate_run_journalled in R as [message R].
    exists message, false. rewrite Hc. unfold draw_phases.
    eapply journalled_trans; [apply finger_cut_state_journalled |].
    eapply journalled_trans; [apply R |].
    by apply closing_journalled in C.
  - eapply duplicate_run_journalled in R as [message R].
    exists message, false. right. split; [done |].
    eapply journalled_trans; [apply finger_cut_state_journalled |].
    eapply journalled_trans; [apply R |].
    apply corner_cut_state_journalled.
  - eapply duplicate_run_journalled in R as [message R].
    eapply duplicate_run_journalled in R' as [message' R'].
    exists message, message'. rewrite Hc. unfold draw_phases, corner_phases.
    eapply journalled_trans; [apply finger_cut_state_journalled |].
    eapply journalled_trans; [apply R |].
    rewrite <- !app_assoc.
    eapply journalled_trans; [apply corner_cut_state_journalled |].
    eapply journalled_trans; [apply R' |].
    eapply journalled_trans; [apply corners_constrained_journalled |].
    by apply closing_journalled in C.
Qed.

End Runs.

(** ** What a run of [draw] leaves in the document *)

Section Draw.
Context {F : Type} `{PyNum F}.
Variable host : Host F.
Variable self : FingerManager F.

Lemma lookup_app_plus {A} (l k : list A) i :
  (l ++ k)%list !! (length l + i) = k !! i.
Proof. rewrite lookup_app_r by lia. f_equal. lia. Qed.

Lemma journalled_refl (s : State F) : journalled s s [].
Proof. exists []. by rewrite app_nil_r. Qed.

Lemma journalled_length (s s' : State F) ps :
  journalled s s' ps →
  length (journal s') = length (journal s) + length ps.
Proof. intros (es & -> & <-). by rewrite length_app, length_fmap. Qed.

Lemma draw_run_from_finger_cut s r s' :
  DrawRun host self s r s' →
  ∃ ps,
    journalled (finger_cut_state host self (selected_body (inputs self)) s)
      s' ps.
Proof.
  inversion 1 as [e des s1 R|h des s'' s1 R Hc C
                 |h des e des' s1 s2 s3 R Hc R'
                 |h des h' des' s'' s1 s2 s3 s4 R Hc R' C]; subst.
  - eexists. apply journalled_refl.
  - eexists. eapply journalled_trans; [apply journalled_after |].
    by apply closing_journalled in C.
  - eexists. eapply journalled_trans; [apply journalled_after |].
    apply corner_cut_state_journalled.
  - eexists. eapply journalled_trans; [apply journalled_after |].
    eapply journalled_trans; [apply corner_cut_state_journalled |].
    eapply journalled_trans; [apply journalled_after |].
    eapply journalled_trans; [apply corners_constrained_journalled |].
    by apply closing_journalled in C.
Qed.

(** The calls of the finger cut, wherever the run goes on from there. *)
Lemma finger_cut_state_lookup body s rest :
  let j := (journal (finger_cut_state host self body s) ++ rest)%list in
  let n := length (journal s) in
  length (journal (finger_cut_state host self body s)) = n + 11
  ∧ (∃ d, j !! (n + 5) = Some d ∧ is_dimension d = true)
  ∧ (∃ d, j !! (n + 6) = Some d ∧ is_dimension d = true)
  ∧ j !! (n + 9)
      = Some (extrudes_add (extrude_input self [profiles_item 0] body))
  ∧ (∀ i c, i < 11 → j !! (n + i) = Some c → is_corner_cut c = false).
Proof.
  unfold finger_cut_state, after; cbn [journal].
  rewrite <- !app_assoc.
  split.
  { rewrite !length_app; cbn.
    rewrite length_app, finger_constraint_calls_length. cbn. lia. }
  rewrite !lookup_app_plus.
  destruct (is_vertical host (_ ++ _)%list); cbn.
  - split; [eauto |]. split; [eauto |]. split; [done |].
    intros i c Hi. rewrite lookup_app_plus.
    do 11 (destruct i as [|i]; [cbn; by intros [= <-] |]). lia.
  - split; [eauto |]. split; [eauto |]. split; [done |].
    intros i c Hi. rewrite lookup_app_plus.
    do 11 (destruct i as [|i]; [cbn; by intros [= <-] |]). lia.
Qed.


Lemma Modify_in_draw_phases message corners message' modified :
  Modify ∈ draw_phases message corners message' modified ↔ modified = true.
Proof.
  rewrite list_elem_of_In.
  destruct message, corners, message', modified; cbn; intuition discriminate.
Qed.

Lemma Extrude_without_corners message modified i :
  draw_phases message false false modified !! i = Some Extrude → i = 9.
Proof.
  destruct message, modified; cbn;
    do 17 (destruct i as [|i]; [try done; by intros [=] |]); done.
Qed.

Lemma Extrude_in_finger_cut_phases i :
  finger_cut_phases !! i = Some Extrude → i = 9.
Proof.
  cbn. do 11 (destruct i as [|i]; [try done; by intros [=] |]); done.
Qed.


(** X2.  A run of [draw] that raises leaves behind every call made so
    far, each made once: the finger rectangle, its constraints and the
    finger cut, and after a failed corner pattern also the finger
    pattern, the corner rectangles and the corner cut.  Neither the
    modifier nor the timeline group is reached. *)
Theorem draw_failure_keeps_issued_calls s e :
  fst (draw host self s) = Raise e →
  ∃ ps,
    journalled s (snd (draw host self s)) ps
    ∧ (ps = finger_cut_phases
       ∨ (ftruthy (offset (params self)) && negb (tab_first (inputs self))
            = true
          ∧ ∃ message,
              ps = (finger_cut_phases ++ pattern_phases message
                    ++ [Draw; Draw; Extrude; Rename])%list))
    ∧ (Group ∉ ps) ∧ (Modify ∉ ps).
Proof.
  destruct (draw_run host self s) as (r & s' & -> & D). cbn [fst snd].
  intros ->.
  apply draw_run_journalled in D as (message & _ & [D | [Hc D]]).
  - eexists. split; [exact D |]. split; [by left |].
    split; rewrite list_elem_of_In; cbn; intuition discriminate.
  - eexists. split; [exact D |]. split; [right; eauto |].
    split; rewrite list_elem_of_In; destruct message; cbn;
      intuition discriminate.
Qed.

(** X3.  [draw] checks the primary axis only when it comes to pattern
    the finger: with an axis that is missing or invalid by then, the
    run raises [PrimaryAxisMissing] with the finger already drawn,
    constrained and cut, and nothing else done. *)
Theorem draw_cuts_before_it_checks_the_axis s :
  let s1 := finger_cut_state host self (selected_body (inputs self)) s in
  is_usable host (journal s1) (reference_line self) = false →
  draw host self s = (Raise PrimaryAxisMissing, s1).
Proof.
  intros s1 Hu. subst s1.
  destruct (draw_run host self s) as (r & s' & -> & D).
  inversion D as [e des s1' R|h des s'' s1' R Hc C
                 |h des e des' s1' s2 s3 R Hc R'
                 |h des h' des' s'' s1' s2 s3 s4 R Hc R' C]; subst;
    subst s1';
    inversion R as [Hu'|p Hp Hv|p e' Hp Hv|p e' Hp Hv]; subst;
    try done;
    unfold is_usable in Hu; rewrite Hp, Hv in Hu; done.
Qed.

(** X4.  With a primary axis that the host keeps valid and a secondary
    edge found on the face, [draw] runs to its end. *)
Theorem draw_completes p e s :
  reference_line self = Some p →
  perpendicular_edge host (journal s) = Some e →
  (∀ j, isValid host j p = true) →
  fst (draw host self s) = Ok tt.
Proof.
  intros Hp He Hv.
  destruct (draw_run host self s) as (r & s' & -> & D). cbn [fst].
  inversion D as [e0 des s1' R|h des s'' s1' R Hc C
                 |h des e0 des' s1' s2 s3 R Hc R'
                 |h des h' des' s'' s1' s2 s3 s4 R Hc R' C]; subst;
    try done; exfalso.
  - inversion R as [Hu|p' Hp' Hv' Hs| |]; subst.
    + unfold is_usable in Hu. rewrite Hp, Hv in Hu. done.
    + congruence.
  - inversion R' as [Hu|p' Hp' Hv' Hs| |]; subst.
    + unfold is_usable in Hu. rewrite Hp, Hv in Hu. done.
    + congruence.
Qed.

(** X5.  A run of [draw] calls the modifier exactly when it gets
    through both patterns and [inputs.parametric] is false. *)
Theorem draw_modifies_iff_literal s :
  ∃ es,
    journal (snd (draw host self s)) = (journal s ++ es)%list
    ∧ (Modify ∈ phase <$> es
       ↔ fst (draw host self s) = Ok tt
         ∧ parametric (inputs self) = false).
Proof.
  destruct (draw_run host self s) as (r & s' & -> & D). cbn [fst snd].
  apply draw_run_journalled in D as (message & message' & D).
  destruct r as [[]|e].
  - destruct D as (es & E & Hps). exists es. split; [done |].
    rewrite Hps, Modify_in_draw_phases.
    destruct (parametric (inputs self)); cbn; intuition discriminate.
  - destruct D as [(es & E & Hps) | (Hc & es & E & Hps)];
      exists es; (split; [done |]); rewrite Hps, list_elem_of_In;
      destruct message; cbn; intuition discriminate.
Qed.

(** X7.  The tenth call of every run of [draw] is the finger cut.  A
    corner cut is never made before it, and is made only when
    [params.offset] is non-zero and [inputs.tab_first] is false. *)
Theorem draw_cuts_corners_after_finger s :
  ∃ es,
    journal (snd (draw host self s)) = (journal s ++ es)%list
    ∧ (∃ f, es !! 9 = Some f ∧ is_finger_cut f = true)
    ∧ (∀ i c, es !! i = Some c → is_corner_cut c = true → 9 < i)
    ∧ ((∃ c, c ∈ es ∧ is_corner_cut c = true) →
       ftruthy (offset (params self)) && negb (tab_first (inputs self))
         = true).
Proof.
  destruct (draw_run host self s) as (r & s' & -> & D). cbn [fst snd].
  destruct (draw_run_from_finger_cut _ _ _ D) as (ps1 & rest & E1 & _).
  destruct (draw_run_journalled _ _ _ _ _ D) as (message & message' & Hps).
  destruct (finger_cut_state_journalled host self
              (selected_body (inputs self)) s) as (fcs & E0 & _).
  exists (fcs ++ rest)%list.
  assert (E : journal s' = (journal s ++ fcs ++ rest)%list)
    by (by rewrite E1, E0, app_assoc).
  destruct (finger_cut_state_lookup (selected_body (inputs self)) s rest)
    as (_ & _ & _ & H9 & Hno).
  rewrite <- E1, E in H9, Hno. rewrite lookup_app_plus in H9.
  assert (Hlate : ∀ i c, (fcs ++ rest)%list !! i = Some c →
                         is_corner_cut c = true → 9 < i).
  { intros i c Hi Hcc. destruct (decide (i < 11)) as [Hlt|]; [| lia].
    specialize (Hno i c Hlt). rewrite lookup_app_plus in Hno.
    rewrite Hno in Hcc; done. }
  split; [done |]. split; [eauto |]. split; [done |].
  intros (c & Hin & Hcc).
  destruct (ftruthy (offset (params self))
            && negb (tab_first (inputs self))) eqn:Hc; [done | exfalso].
  apply list_elem_of_lookup in Hin as (i & Hi).
  specialize (Hlate i c Hi Hcc).
  assert (Hph : (phase <$> (fcs ++ rest)%list) !! i = Some Extrude).
  { rewrite list_lookup_fmap, Hi. cbn. f_equal.
    destruct c as [| | | | |inp| | | | |]; try done. }
  assert (i = 9); [| lia].
  destruct r as [[]|e'].
  - destruct Hps as (es & Ees & Hps). rewrite E in Ees.
    apply app_inv_head in Ees as <-. rewrite Hps in Hph.
    assert (Hph' : draw_phases message false false
                     (negb (parametric (inputs self))) !! i
                   = Some Extrude) by done.
    by eapply Extrude_without_corners.
  - destruct Hps as [(es & Ees & Hps) | (Hc' & _)]; [| done].
    rewrite E in Ees. apply app_inv_head in Ees as <-.
    rewrite Hps in Hph. by apply Extrude_in_finger_cut_phases.
Qed.


Lemma duplicate_run_handle name features quantity distance squantity
    primary secondary s h des rest :
  DuplicateRun host self name features quantity distance squantity
    primary secondary s (Ok h) des →
  h < length (journal s) + length des
  ∧ (length (journal s) ≤ h)%nat
  ∧ ∃ input,
      (journal s ++ des ++ rest)%list !! h = Some (patterns_add input)
      ∧ pat_entities input = features
      ∧ pat_quantityOne input = createByReal quantity
      ∧ pat_distanceOne input = createByReal distance.
Proof.
  inversion 1; subst.
  - split; [cbn; lia |]. split; [lia |].
    eexists. split; [by apply list_lookup_middle | done].
  - split; [cbn; lia |]. split; [lia |].
    rewrite lookup_app_plus. eexists. split; done.
Qed.

Lemma closing_modifier start_mp s s' :
  Closing host self start_mp s s' →
  parametric (inputs self) = false →
  ∃ args post,
    modifier_args self (attrs s) = Some args
    ∧ journal s' = (journal s ++ modifier args :: post)%list.
Proof.
  inversion 1 as [Hp|args Hp Hargs]; [congruence |].
  intros _. by eexists _, _.
Qed.

Lemma modifier_args_fields a args :
  modifier_args self a = Some args →
  m_kind args = finger_type (inputs self)
  ∧ m_alias args = alias self
  ∧ a !! "finger_dimension" = Some (m_finger_dimension args)
  ∧ a !! "offset_dimension" = Some (m_offset_dimension args)
  ∧ a !! "finger_cut" = Some (m_finger_cut args)
  ∧ a !! "finger_pattern" = Some (m_finger_pattern args)
  ∧ m_corner_cut args = a !! "corner_cut"
  ∧ m_corner_pattern args = a !! "corner_pattern"
  ∧ m_left_dimension args = a !! "left_dimension"
  ∧ m_right_dimension args = a !! "right_dimension".
Proof.
  unfold modifier_args.
  destruct (a !! "finger_dimension"), (a !! "offset_dimension"),
    (a !! "finger_cut"), (a !! "finger_pattern"); cbn; try done.
  intros [= <-]. cbn. by repeat split.
Qed.

(** The state in which a completed run reaches its last steps. *)
Lemma draw_run_before_closing s s' :
  DrawRun host self s (Ok tt) s' →
  ∃ h des mid s0,
    let s1 := finger_cut_state host self (selected_body (inputs self)) s in
    DuplicateRun host self (name self +:+ " Finger Duplicate Pattern")
      [length (journal s) + 9]
      (notches (params self)) (pattern_distance (params self))
      (fadd (interior_value (inputs self)) (of_Z 2))
      (reference_line self) (perpendicular_edge host (journal s))
      s1 (Ok h) des
    ∧ Closing host self (markerPosition host (journal s) - 1) s0 s'
    ∧ journal s0 = (journal s1 ++ des ++ mid)%list
    ∧ attrs s0 !! "finger_dimension" = Some (length (journal s) + 5)
    ∧ attrs s0 !! "offset_dimension" = Some (length (journal s) + 6)
    ∧ attrs s0 !! "finger_cut" = Some (length (journal s) + 9)
    ∧ attrs s0 !! "finger_pattern" = Some h.
Proof.
  inversion 1 as [|h des s'' s1 R Hc C|
                 |h des h' des' s'' s1 s2 s3 s4 R Hc R' C]; subst.
  - exists h, des, [], (after s1 des (<["finger_pattern" := h]> (attrs s1))).
    cbv zeta. split; [done |]. split; [done |].
    split; [by rewrite app_nil_r |].
    apply (finger_attrs host self).
  - assert (∃ ps, journalled s2
                    (corners_constrained host (length (journal s2))
                       (length (journal s2) + 1) s4) ps)
      as (ps & mid & Emid & _).
    { eexists.
      eapply journalled_trans; [apply corner_cut_state_journalled |].
      eapply journalled_trans; [apply journalled_after |].
      apply corners_constrained_journalled. }
    exists h, des, mid. eexists. cbv zeta.
    split; [done |]. split; [exact C |].
    split; [by rewrite Emid, app_assoc |].
    destruct (finger_attrs host self (selected_body (inputs self)) s h)
      as (A1 & A2 & A3 & A4).
    unfold corners_constrained, s4, s3, corner_cut_state, s2, after.
    cbn [attrs].
    repeat split;
      (etrans; [| first [exact A1 | exact A2 | exact A3 | exact A4]]);
      by rewrite !lookup_insert_ne by done.
Qed.

(** X6.  In a completed run with [inputs.parametric] false, the
    modifier is called in this run with the manager's alias and, as
    finger dimension, offset dimension, finger cut and finger pattern,
    the two dimensions, the cut of the first profile and the pattern
    that this run created. *)
Theorem draw_modifier_receives_created_features s :
  fst (draw host self s) = Ok tt →
  parametric (inputs self) = false →
  ∃ args i fd od fc fp,
    let j' := journal (snd (draw host self s)) in
    let n := length (journal s) in
    ((n ≤ i)%nat ∧ j' !! i = Some (modifier args))
    ∧ m_kind args = finger_type (inputs self)
    ∧ m_alias args = alias self
    ∧ ((n ≤ m_finger_dimension args)%nat
       ∧ j' !! m_finger_dimension args = Some fd ∧ is_dimension fd = true)
    ∧ ((n ≤ m_offset_dimension args)%nat
       ∧ j' !! m_offset_dimension args = Some od ∧ is_dimension od = true)
    ∧ ((n ≤ m_finger_cut args)%nat
       ∧ j' !! m_finger_cut args = Some fc ∧ is_finger_cut fc = true)
    ∧ ((n ≤ m_finger_pattern args)%nat
       ∧ j' !! m_finger_pattern args = Some fp ∧ phase fp = Pattern).
Proof.
  destruct (draw_run host self s) as (r & s' & -> & D). cbn [fst snd].
  intros -> Hp.
  apply draw_run_before_closing in D
    as (h & des & mid & s0 & R & C & E0 & A1 & A2 & A3 & A4).
  apply closing_modifier in C as (args & post & Hargs & E'); [| done].
  apply modifier_args_fields in Hargs
    as (Hk & Ha & B1 & B2 & B3 & B4 & _).
  pose proof (eq_trans (eq_sym B1) A1) as [= D1].
  pose proof (eq_trans (eq_sym B2) A2) as [= D2].
  pose proof (eq_trans (eq_sym B3) A3) as [= D3].
  pose proof (eq_trans (eq_sym B4) A4) as [= D4].
  set (s1 := finger_cut_state host self (selected_body (inputs self)) s)
    in *.
  destruct (finger_cut_state_lookup (selected_body (inputs self)) s
              (des ++ mid ++ modifier args :: post)%list)
    as (Hlen & (fd & Hfd & Hfd') & (od & Hod & Hod') & Hfc & _).
  destruct (duplicate_run_handle _ _ _ _ _ _ _ _ _ _
              (mid ++ modifier args :: post)%list R)
    as (_ & Hh & input & Hfp & _).
  fold s1 in Hlen, Hfd, Hod, Hfc.
  assert (E : journal s'
              = (journal s1 ++ des ++ mid ++ modifier args :: post)%list)
    by (by rewrite E', E0, <- !app_assoc).
  exists args, (length (journal s0)), fd, od,
    (extrudes_add (extrude_input self [profiles_item 0]
                     (selected_body (inputs self)))), (patterns_add input).
  cbv zeta. rewrite E, D1, D2, D3, D4.
  split.
  { split; [rewrite E0, length_app; lia |].
    rewrite !app_assoc, <- (app_assoc _ des mid), <- E0.
    by apply list_lookup_middle. }
  do 2 (split; [done |]).
  split; [split; [lia | eauto] |].
  split; [split; [lia | eauto] |].
  split; [split; [lia | eauto] |].
  split; [lia | eauto].
Qed.


(** X8.  A completed run of [draw] ends with the timeline group and
    its name ['<name> Finger Group'].  The group runs from the marker
    position read before the first call, less one, to the marker
    position read after the last call before the group, less one. *)
Theorem draw_groups_what_it_created s :
  fst (draw host self s) = Ok tt →
  ∃ pre,
    journal (snd (draw host self s)) =
      (journal s ++ pre
       ++ [timelineGroups_add (markerPosition host (journal s) - 1)
             (markerPosition host (journal s ++ pre) - 1);
           set_name (length (journal s ++ pre))
             (name self +:+ " Finger Group")])%list.
Proof.
  destruct (draw_run host self s) as (r & s' & -> & D). cbn [fst snd].
  intros ->.
  apply draw_run_before_closing in D
    as (h & des & mid & s0 & _ & C & E0 & _).
  destruct (finger_cut_state_journalled host self
              (selected_body (inputs self)) s) as (fcs & E1 & _).
  rewrite E1, <- app_assoc in E0.
  inversion C as [Hp|args Hp Hargs]; subst; cbn [journal after].
  - exists (fcs ++ des ++ mid)%list. rewrite <- E0.
    by rewrite (app_assoc (journal s)), <- E0.
  - exists (fcs ++ des ++ mid ++ [modifier args])%list.
    replace (journal s ++ fcs ++ des ++ mid ++ [modifier args])%list
      with (journal s0 ++ [modifier args])%list
      by (by rewrite E0, <- !app_assoc).
    rewrite length_app. cbn [length].
    rewrite (app_assoc (journal s)).
    replace (journal s ++ fcs ++ des ++ mid ++ [modifier args])%list
      with (journal s0 ++ [modifier args])%list
      by (by rewrite E0, <- !app_assoc).
    by rewrite <- app_assoc.
Qed.


Lemma closing_keeps_attrs start_mp s s' :
  Closing host self start_mp s s' →
  attrs s' = attrs s ∧ ∃ post, journal s' = (journal s ++ post)%list.
Proof. inversion 1; subst; cbn; eauto. Qed.

(** X9.  After a completed run of [draw] the attributes [finger_cut]
    and [finger_pattern] name the cut of the first profile and a
    pattern made after it in this run, and that pattern duplicates the
    finger cut only, [params.notches] times at
    [params.pattern_distance]. *)
Theorem draw_patterns_the_finger_cut s :
  fst (draw host self s) = Ok tt →
  let s' := snd (draw host self s) in
  ∃ cut pattern input,
    attrs s' !! "finger_cut" = Some cut
    ∧ attrs s' !! "finger_pattern" = Some pattern
    ∧ (length (journal s) ≤ cut)%nat ∧ cut < pattern
    ∧ journal s' !! cut =
        Some (extrudes_add
                (extrude_input self [profiles_item 0]
                   (selected_body (inputs self))))
    ∧ journal s' !! pattern = Some (patterns_add input)
    ∧ pat_entities input = [cut]
    ∧ pat_quantityOne input = createByReal (notches (params self))
    ∧ pat_distanceOne input
        = createByReal (pattern_distance (params self)).
Proof.
  destruct (draw_run host self s) as (r & s' & -> & D). cbn [fst snd].
  intros ->. cbv zeta.
  apply draw_run_before_closing in D
    as (h & des & mid & s0 & R & C & E0 & _ & _ & A3 & A4).
  apply closing_keeps_attrs in C as (-> & post & ->).
  rewrite E0, <- !app_assoc.
  destruct (finger_cut_state_lookup (selected_body (inputs self)) s
              (des ++ mid ++ post)%list) as (Hlen & _ & _ & Hfc & _).
  destruct (duplicate_run_handle _ _ _ _ _ _ _ _ _ _
              (mid ++ post)%list R) as (_ & Hh & input & Hfp & He & Hq & Hd).
  exists (length (journal s) + 9), h, input.
  do 2 (split; [done |]). split; [lia |]. split; [lia |].
  by repeat split.
Qed.


Lemma journalled_with_refl (P : HostCall F → Prop) s :
  journalled_with P s s.
Proof. exists []. by rewrite app_nil_r. Qed.

Lemma journalled_with_after (P : HostCall F → Prop) s es a :
  Forall P es → journalled_with P s (after s es a).
Proof. by exists es. Qed.

Lemma journalled_with_trans (P : HostCall F → Prop) s s' s'' :
  journalled_with P s s' → journalled_with P s' s'' →
  journalled_with P s s''.
Proof.
  intros (es & E & Hes) (es' & E' & Hes'). exists (es ++ es')%list.
  split; [by rewrite E', E, app_assoc | by apply Forall_app].
Qed.

Lemma finger_cut_state_features s0 s :
  journalled_with (feature_of_the_run host self s0) s
    (finger_cut_state host self (selected_body (inputs self)) s).
Proof.
  apply journalled_with_after.
  unfold finger_constraint_calls.
  destruct (is_vertical host (_ ++ _)%list); repeat constructor;
    by eexists.
Qed.

Lemma corner_cut_state_features s0 s :
  journalled_with (feature_of_the_run host self s0) s
    (corner_cut_state host self (selected_body (inputs self)) s).
Proof.
  apply journalled_with_after. repeat constructor; by eexists.
Qed.

Lemma corners_constrained_features s0 left_corner right_corner s :
  journalled_with (feature_of_the_run host self s0) s
    (corners_constrained host left_corner right_corner s).
Proof. apply journalled_with_after. repeat constructor. Qed.

Lemma closing_features s0 start_mp s s' :
  Closing host self start_mp s s' →
  journalled_with (feature_of_the_run host self s0) s s'.
Proof.
  inversion 1; apply journalled_with_after; repeat constructor.
Qed.

Lemma duplicate_run_features s0 name features quantity distance squantity
    s r des a :
  DuplicateRun host self name features quantity distance squantity
    (reference_line self) (perpendicular_edge host (journal s0)) s r des →
  journalled_with (feature_of_the_run host self s0) s (after s des a).
Proof.
  intros R. apply journalled_with_after.
  inversion R as [|p Hp Hv Hs|p e Hp Hv Hs Hd He|p e Hp Hv Hs Hd];
    subst; repeat apply Forall_cons_2; try apply Forall_nil_2; cbn;
    try done.
  do 2 (split; [done |]). intros e' q d [= <- <- <-]. by split.
Qed.

Lemma draw_run_features s r s' :
  DrawRun host self s r s' →
  journalled_with (feature_of_the_run host self s) s s'.
Proof.
  inversion 1 as [e des s1 R|h des s'' s1 R Hc C
                 |h des e des' s1 s2 s3 R Hc R'
                 |h des h' des' s'' s1 s2 s3 s4 R Hc R' C]; subst.
  - apply finger_cut_state_features.
  - eapply journalled_with_trans; [apply finger_cut_state_features |].
    eapply journalled_with_trans; [by eapply duplicate_run_features |].
    by eapply closing_features.
  - eapply journalled_with_trans; [apply finger_cut_state_features |].
    eapply journalled_with_trans; [by eapply duplicate_run_features |].
    apply corner_cut_state_features.
  - eapply journalled_with_trans; [apply finger_cut_state_features |].
    eapply journalled_with_trans; [by eapply duplicate_run_features |].
    eapply journalled_with_trans; [apply corner_cut_state_features |].
    eapply journalled_with_trans; [by eapply duplicate_run_features |].
    eapply journalled_with_trans; [apply corners_constrained_features |].
    by eapply closing_features.
Qed.

(** X11.  Whatever a run of [draw] extrudes is a cut with the selected
    body as its only participant and the finite extent
    [-abs(depth * 10)]; whatever it patterns runs along the manager's
    reference line, and a second direction, where a pattern has one, is
    the perpendicular edge found before the first call, with the
    distance [params.distance - params.depth]. *)
Theorem draw_features_keep_to_the_body_and_the_axes s :
  ∃ es,
    journal (snd (draw host self s)) = (journal s ++ es)%list
    ∧ (∀ input, extrudes_add input ∈ es →
         ex_operation input = CutFeatureOperation
         ∧ ex_participantBodies input = [selected_body (inputs self)]
         ∧ ex_extent input =
             Some (DistanceExtent false
                     (createByString
                        (fstr (fneg (fabs (fmul (depth (params self))
                                             (of_Z 10))))))))
    ∧ (∀ input, patterns_add input ∈ es →
         reference_line self = Some (pat_directionOne input)
         ∧ pat_distanceType input = ExtentPatternDistanceType
         ∧ ∀ e quantity distance,
             pat_directionTwo input = Some (e, quantity, distance) →
             perpendicular_edge host (journal s) = Some e
             ∧ distance = createByReal (fsub (params_distance self)
                                          (depth (params self)))).
Proof.
  destruct (draw_run host self s) as (r & s' & -> & D). cbn [fst snd].
  apply draw_run_features in D as (es & E & Hes).
  exists es. split; [done |].
  rewrite Forall_forall in Hes.
  split; intros input Hin; specialize (Hes _ Hin); cbn in Hes.
  - destruct Hes as [profiles ->]. by repeat split.
  - done.
Qed.

End Draw.

(** ** More on [duplicate] and the constraints *)

Section Orientation.
Context {F : Type} `{PyNum F}.
Variable host : Host F.
Variable self : FingerManager F.


(** X13.  With valid primary and secondary axes and
    [params.distance > 0], [duplicate] shows no message box and the
    pattern gets its second direction: the secondary axis, the given
    second quantity, and the distance [params.distance - params.depth]. *)
Theorem duplicate_second_direction name features quantity distance
    squantity p e body s :
  isValid host (journal s) p = true →
  isValid host (journal s) e = true →
  fgt0 (params_distance self) = true →
  ∃ input,
    duplicate host self name features quantity distance squantity
      (Some p) (Some e) body s =
      (Ok (length (journal s)),
       after s [patterns_add input; set_name (length (journal s)) name]
         (attrs s))
    ∧ pat_directionTwo input =
        Some (e, createByReal squantity,
              createByReal (fsub (params_distance self)
                              (depth (params self)))).
Proof.
  intros Hp He Hd.
  destruct (duplicate_run host self name features quantity distance
              squantity (Some p) (Some e) body s) as (r & es & -> & R).
  inversion R; simplify_eq/=; try congruence.
  - eexists. split; [reflexivity | done].
  - rewrite Hd, He in *. done.
Qed.

(** X14.  When [params.distance] is not positive, [duplicate] takes
    the message-box branch although the secondary axis is valid: it
    shows ['secondary valid: True'] and adds the pattern with one
    direction only. *)
Theorem duplicate_reports_a_valid_secondary name features quantity
    distance squantity p e body s :
  isValid host (journal s) p = true →
  isValid host (journal s) e = true →
  fgt0 (params_distance self) = false →
  duplicate host self name features quantity distance squantity
    (Some p) (Some e) body s =
    (Ok (length (journal s) + 1),
     after s
       [messageBox "secondary valid: True";
        patterns_add
          (patterns_createInput features p (createByReal quantity)
             (createByReal distance) ExtentPatternDistanceType);
        set_name (length (journal s) + 1) name]
       (attrs s)).
Proof.
  intros Hp He Hd.
  destruct (duplicate_run host self name features quantity distance
              squantity (Some p) (Some e) body s) as (r & es & -> & R).
  inversion R; simplify_eq/=; try congruence.
  by rewrite He.
Qed.

(** X18.  [constrain_finger] adds eight calls after those already
    journalled.  With a vertical border the bottom and top lines of the
    finger are constrained vertical and the left and right lines
    horizontal, and both dimensions are vertical, the finger's from its
    bottom-left to its top-left point; with a horizontal border it is
    the other way round, the finger's dimension running to its
    bottom-right point.  [finger_dimension] and [offset_dimension] name
    the two dimension calls, the second measuring to the border's
    bottom-left point. *)
Theorem constrain_finger_follows_the_border finger f s :
  attrs s !! "finger" = Some f →
  let vertical := is_vertical host (journal s) in
  let s' := snd (constrain_finger host finger s) in
  let n := length (journal s) in
  fst (constrain_finger host finger s) = Ok tt
  ∧ length (journal s') = n + 8
  ∧ take n (journal s') = journal s
  ∧ journal s' !! n =
      Some ((if vertical then addVertical else addHorizontal)
              (Drawn f, bottom))
  ∧ journal s' !! (n + 1) =
      Some ((if vertical then addVertical else addHorizontal)
              (Drawn f, top))
  ∧ journal s' !! (n + 2) =
      Some ((if vertical then addHorizontal else addVertical)
              (Drawn f, left))
  ∧ journal s' !! (n + 3) =
      Some ((if vertical then addHorizontal else addVertical)
              (Drawn f, right))
  ∧ (∃ d t,
       attrs s' !! "finger_dimension" = Some d
       ∧ journal s' !! d =
           Some (addDistanceDimension (Drawn finger, bottom_left)
                   (Drawn finger,
                    if vertical then top_left else bottom_right)
                   (if vertical then VerticalDimension
                    else HorizontalDimension) t))
  ∧ (∃ d t,
       attrs s' !! "offset_dimension" = Some d
       ∧ journal s' !! d =
           Some (addDistanceDimension (Drawn finger, bottom_left)
                   (Border, bottom_left)
                   (if vertical then VerticalDimension
                    else HorizontalDimension) t)).
Proof.
  intros Hf vertical s' n. subst s' n.
  rewrite (constrain_finger_run host _ _ _ Hf). cbn [fst snd].
  fold vertical. unfold after; cbn [journal attrs].
  split; [done |].
  split; [by rewrite length_app, finger_constraint_calls_length |].
  split; [by rewrite take_app_length |].
  rewrite lookup_insert_ne, !lookup_insert_eq by done.
  unfold Journal.
  split; [destruct vertical; by apply list_lookup_middle |].
  rewrite !lookup_app_plus.
  do 3 (split; [by destruct vertical |]).
  split; destruct vertical; eexists _, _; (split; [reflexivity |]);
    by rewrite lookup_app_plus.
Qed.

(** X19.  [constrain_vertical_corners] does what
    [constrain_horizontal_corners] does: fourteen calls, in which every
    dimension is horizontal, and [left_dimension] and [right_dimension]
    name the dimensions along the bottom edge of the left and the right
    corner. *)
Theorem corner_constraints_ignore_the_orientation left_corner right_corner s :
  let s' := snd (constrain_vertical_corners host left_corner right_corner s) in
  let n := length (journal s) in
  constrain_vertical_corners host left_corner right_corner s
    = constrain_horizontal_corners host left_corner right_corner s
  ∧ fst (constrain_vertical_corners host left_corner right_corner s) = Ok tt
  ∧ length (journal s') = n + 14
  ∧ take n (journal s') = journal s
  ∧ (∀ i a b o t,
       journal s' !! (n + i) = Some (addDistanceDimension a b o t) →
       o = HorizontalDimension)
  ∧ (∃ d t,
       attrs s' !! "left_dimension" = Some d
       ∧ journal s' !! d =
           Some (addDistanceDimension (Drawn left_corner, bottom_left)
                   (Drawn left_corner, bottom_right)
                   HorizontalDimension t))
  ∧ (∃ d t,
       attrs s' !! "right_dimension" = Some d
       ∧ journal s' !! d =
           Some (addDistanceDimension (Drawn right_corner, bottom_left)
                   (Drawn right_corner, bottom_right)
                   HorizontalDimension t)).
Proof.
  intros s' n. subst s' n.
  rewrite constrain_vertical_corners_run, constrain_horizontal_corners_run.
  cbn [fst snd]. unfold corners_constrained, after; cbn [journal attrs].
  split; [done |]. split; [done |].
  split; [by rewrite length_app |].
  split; [by rewrite take_app_length |].
  unfold Journal.
  split.
  { intros i a b o t. rewrite lookup_app_plus.
    do 14 (destruct i as [|i]; [cbn; intros [=]; by subst |]).
    done. }
  rewrite lookup_insert_ne, !lookup_insert_eq by done.
  split; eexists _, _; (split; [reflexivity |]).
  - by apply list_lookup_middle.
  - by rewrite lookup_app_plus.
Qed.

End Orientation.

(** ** The sketch wrapper *)

Section SketchProperties.
Import Sketch.

(** X20.  [offset_point] with a vertical border is [offset_point] with
    a horizontal border and length and width exchanged: the width is
    added to x and the length to y when the border is vertical, the
    length to x and the width to y otherwise, and z is kept. *)
Theorem offset_point_swaps_with_the_orientation {F} `{PyNum F}
    (is_vertical : bool) (point : Point3D F) (length width : F) :
  offset_point is_vertical point length width
    = offset_point (negb is_vertical) point width length
  ∧ pz (offset_point is_vertical point length width) = pz point
  ∧ px (offset_point is_vertical point length width)
      = fadd (px point) (if is_vertical then width else length)
  ∧ py (offset_point is_vertical point length width)
      = fadd (py point) (if is_vertical then length else width).
Proof. by destruct is_vertical. Qed.

Lemma origin_alter_construct i (doc : list SketchLine) :
  origin <$> alter construct i doc = origin <$> doc.
Proof.
  revert i. induction doc as [|l doc IH]; intros [|i]; cbn; [done.. |].
  by rewrite IH.
Qed.

Lemma Rectangle_init_origin ls construction doc :
  origin <$> snd (Rectangle_init ls construction doc) = origin <$> doc.
Proof.
  destruct construction; cbn; [| done].
  revert doc. induction ls as [|i ls IH]; intros doc; cbn; [done |].
  by rewrite IH, origin_alter_construct.
Qed.

Lemma Rectangle_init_length ls construction doc :
  List.length (snd (Rectangle_init ls construction doc)) = List.length doc.
Proof.
  rewrite <- (length_fmap origin), Rectangle_init_origin.
  apply length_fmap.
Qed.

Lemma foldl_project (host : Sketch.Host) es doc :
  foldl (λ d line, (d ++ project host line)%list) doc es
  = (doc ++ concat (project host <$> es))%list.
Proof.
  revert doc. induction es as [|e es IH]; intros doc; cbn.
  - by rewrite app_nil_r.
  - by rewrite IH, app_assoc.
Qed.

(** X21.  After [__init__] the line collection holds the lines the
    new sketch started with, followed by what projecting the first four
    edges of the face added, in the order of the edges; later edges are
    not projected.  The slices never fail: the face lines are the lines
    at positions 0 to 3 and the border the lines at positions 4 to 7,
    as far as the collection has them. *)
Theorem init_projects_the_first_four_edges (host : Sketch.Host) name face :
  let doc := sketches_add host (brepface face) in
  let sk := init host name face in
  origin <$> lines sk
    = origin <$> (doc ++ concat (project host <$> take 4 (edges face)))%list
  ∧ tracked (face_lines sk) = seq 0 (Nat.min 4 (List.length doc))
  ∧ tracked (border sk) = seq 4 (Nat.min 8 (List.length (lines sk)) - 4).
Proof.
  cbv zeta. unfold init.
  destruct (Rectangle_init _ true (sketches_add host (brepface face)))
    as [fl doc1] eqn:E1.
  destruct (Rectangle_init _ true
              (foldl (λ d line, (d ++ project host line)%list) doc1
                 (take 4 (edges face)))) as [b doc2] eqn:E2.
  cbn [lines face_lines border].
  pose proof (Rectangle_init_origin
                (slice 0 4 (List.length (sketches_add host (brepface face))))
                true (sketches_add host (brepface face))) as O1.
  rewrite E1 in O1. cbn [snd] in O1.
  pose proof (Rectangle_init_origin
                (slice 4 8 (List.length
                   (foldl (λ d line, (d ++ project host line)%list) doc1
                      (take 4 (edges face)))))
                true
                (foldl (λ d line, (d ++ project host line)%list) doc1
                   (take 4 (edges face)))) as O2.
  rewrite E2 in O2. cbn [snd] in O2.
  split; [| split].
  - rewrite O2, foldl_project, !fmap_app. by rewrite O1.
  - injection E1 as <- _. cbn. unfold slice. f_equal. lia.
  - assert (L : List.length doc2
                = List.length
                    (foldl (λ d line, (d ++ project host line)%list) doc1
                       (take 4 (edges face)))).
    { by rewrite <- (length_fmap origin), O2, length_fmap. }
    injection E2 as <- _. cbn. unfold slice. by rewrite L.
Qed.

(** X22.  When the new sketch starts with four lines, the face has
    four edges and every projection adds one line, [__init__] leaves a
    sketch of eight lines, all construction lines, whose face lines are
    lines 0 to 3 and whose border is lines 4 to 7, line [4 + i] being
    the projection of edge [i]; the reference points and the reference
    line are the border's. *)
Theorem init_makes_outline_and_border_construction (host : Sketch.Host)
    name face :
  List.length (sketches_add host (brepface face)) = 4 →
  List.length (edges face) = 4 →
  (∀ e, e ∈ edges face → List.length (project host e) = 1) →
  let sk := init host name face in
  List.length (lines sk) = 8
  ∧ Forall (λ l, isConstruction l = true) (lines sk)
  ∧ tracked (face_lines sk) = [0; 1; 2; 3]
  ∧ tracked (border sk) = [4; 5; 6; 7]
  ∧ (∀ i e, edges face !! i = Some e →
       origin <$> (lines sk !! (4 + i)) = origin <$> head (project host e))
  ∧ sketch_face sk = brepface face
  ∧ reference_points sk = reference_points_of (border sk)
  ∧ reference_line sk = reference_line_of (border sk).
Proof.
  intros Hdoc Hedges Hproj. cbv zeta. unfold init.
  destruct (sketches_add host (brepface face))
    as [|l0 [|l1 [|l2 [|l3 [|]]]]]; try discriminate Hdoc.
  destruct face as [bf es]; cbn [edges brepface] in *.
  destruct es as [|e0 [|e1 [|e2 [|e3 [|]]]]]; try discriminate Hedges.
  assert (∃ p0, project host e0 = [p0]) as [p0 P0].
  { specialize (Hproj e0 ltac:(set_solver)).
    destruct (project host e0) as [|p [|]]; try discriminate Hproj. eauto. }
  assert (∃ p1, project host e1 = [p1]) as [p1 P1].
  { specialize (Hproj e1 ltac:(set_solver)).
    destruct (project host e1) as [|p [|]]; try discriminate Hproj. eauto. }
  assert (∃ p2, project host e2 = [p2]) as [p2 P2].
  { specialize (Hproj e2 ltac:(set_solver)).
    destruct (project host e2) as [|p [|]]; try discriminate Hproj. eauto. }
  assert (∃ p3, project host e3 = [p3]) as [p3 P3].
  { specialize (Hproj e3 ltac:(set_solver)).
    destruct (project host e3) as [|p [|]]; try discriminate Hproj. eauto. }
  cbn. rewrite P0, P1, P2, P3. cbn.
  split; [done |]. split; [by repeat constructor |].
  do 2 (split; [done |]).
  split; [| done].
  intros i e Hi.
  destruct i as [|[|[|[|i]]]]; cbn in Hi; simplify_eq;
    by rewrite ?P0, ?P1, ?P2, ?P3.
Qed.

(** X23.  The [name] property of a sketch is the name of its face,
    not the name given to [__init__]: setting it and reading it back
    gives the value set, every sketch on the same face reads the new
    value, and sketches on other faces read what they read before. *)
Theorem name_is_the_name_of_the_face (host : Sketch.Host) n face names
    value (other : Sketch) :
  let sk := init host n face in
  sketch_name sk = n
  ∧ name names sk = names (brepface face)
  ∧ name (name_setter value sk names) sk = value
  ∧ (brepface (Sketch.face other) = brepface face →
     name (name_setter value sk names) other = value)
  ∧ (brepface (Sketch.face other) ≠ brepface face →
     name (name_setter value sk names) other = name names other).
Proof.
  cbv zeta. unfold name, name_setter, init.
  destruct (Rectangle_init _ _ _) as [fl doc1].
  destruct (Rectangle_init _ _ _) as [b doc2]. cbn.
  rewrite Nat.eqb_refl. repeat split.
  - intros ->. by rewrite Nat.eqb_refl.
  - intros Hne. apply Nat.eqb_neq in Hne. by rewrite Hne.
Qed.


End SketchProperties.

(** ** The script at work

    The properties that rest on an assumption, each at a run of the
    concrete host. *)

#[local] Existing Instance Example.Q_PyNum.

Lemma draw_failure_keeps_issued_calls_witness :
  fst (draw Example.fragile Example.front Example.fresh)
    = Raise PrimaryAxisMissing
  ∧ ∃ ps,
      journalled Example.fresh
        (snd (draw Example.fragile Example.front Example.fresh)) ps
      ∧ (ps = finger_cut_phases
         ∨ (ftruthy (offset (params Example.front))
            && negb (tab_first (inputs Example.front)) = true
            ∧ ∃ message,
                ps = (finger_cut_phases ++ pattern_phases message
                      ++ [Draw; Draw; Extrude; Rename])%list))
      ∧ (Group ∉ ps) ∧ (Modify ∉ ps).
Proof.
  split; [vm_compute; reflexivity |].
  apply (draw_failure_keeps_issued_calls Example.fragile Example.front
           Example.fresh PrimaryAxisMissing).
  vm_compute; reflexivity.
Defined.

Lemma draw_cuts_before_it_checks_the_axis_witness :
  is_usable Example.fragile
    (journal
       (finger_cut_state Example.fragile Example.front
          (selected_body (inputs Example.front)) Example.fresh))
    (reference_line Example.front) = false
  ∧ draw Example.fragile Example.front Example.fresh
    = (Raise PrimaryAxisMissing,
       finger_cut_state Example.fragile Example.front
         (selected_body (inputs Example.front)) Example.fresh).
Proof.
  split; [vm_compute; reflexivity |].
  apply (draw_cuts_before_it_checks_the_axis Example.fragile Example.front
           Example.fresh).
  vm_compute; reflexivity.
Defined.

Lemma draw_completes_witness :
  reference_line Example.front = Some 1
  ∧ perpendicular_edge Example.steady (journal Example.fresh) = Some 2
  ∧ (∀ j, isValid Example.steady j 1 = true)
  ∧ fst (draw Example.steady Example.front Example.fresh) = Ok tt.
Proof.
  split; [reflexivity |]. split; [reflexivity |].
  split; [intros j; reflexivity |].
  apply (draw_completes Example.steady Example.front 1 2 Example.fresh);
    [reflexivity | reflexivity | intros j; reflexivity].
Defined.

Lemma draw_modifier_receives_created_features_witness :
  fst (draw Example.steady Example.front Example.fresh) = Ok tt
  ∧ parametric (inputs Example.front) = false
  ∧ ∃ args i fd od fc fp,
      let j' :=
        journal (snd (draw Example.steady Example.front Example.fresh)) in
      let n := length (journal Example.fresh) in
      ((n ≤ i)%nat ∧ j' !! i = Some (modifier args))
      ∧ m_kind args = finger_type (inputs Example.front)
      ∧ m_alias args = alias Example.front
      ∧ ((n ≤ m_finger_dimension args)%nat
         ∧ j' !! m_finger_dimension args = Some fd
         ∧ is_dimension fd = true)
      ∧ ((n ≤ m_offset_dimension args)%nat
         ∧ j' !! m_offset_dimension args = Some od
         ∧ is_dimension od = true)
      ∧ ((n ≤ m_finger_cut args)%nat
         ∧ j' !! m_finger_cut args = Some fc ∧ is_finger_cut fc = true)
      ∧ ((n ≤ m_finger_pattern args)%nat
         ∧ j' !! m_finger_pattern args = Some fp ∧ phase fp = Pattern).
Proof.
  split; [vm_compute; reflexivity |]. split; [reflexivity |].
  apply (draw_modifier_receives_created_features Example.steady
           Example.front Example.fresh);
    [vm_compute; reflexivity | reflexivity].
Defined.

Lemma draw_groups_what_it_created_witness :
  fst (draw Example.steady Example.front Example.fresh) = Ok tt
  ∧ ∃ pre,
      journal (snd (draw Example.steady Example.front Example.fresh)) =
        (journal Example.fresh ++ pre
         ++ [timelineGroups_add
               (markerPosition Example.steady (journal Example.fresh) - 1)
               (markerPosition Example.steady
                  (journal Example.fresh ++ pre) - 1);
             set_name (length (journal Example.fresh ++ pre))
               (name Example.front +:+ " Finger Group")])%list.
Proof.
  split; [vm_compute; reflexivity |].
  apply (draw_groups_what_it_created Example.steady Example.front
           Example.fresh).
  vm_compute; reflexivity.
Defined.

Lemma draw_patterns_the_finger_cut_witness :
  fst (draw Example.steady Example.front Example.fresh) = Ok tt
  ∧ let s' := snd (draw Example.steady Example.front Example.fresh) in
    ∃ cut pattern input,
      attrs s' !! "finger_cut" = Some cut
      ∧ attrs s' !! "finger_pattern" = Some pattern
      ∧ (length (journal Example.fresh) ≤ cut)%nat ∧ cut < pattern
      ∧ journal s' !! cut =
          Some (extrudes_add
                  (extrude_input Example.front [profiles_item 0]
                     (selected_body (inputs Example.front))))
      ∧ journal s' !! pattern = Some (patterns_add input)
      ∧ pat_entities input = [cut]
      ∧ pat_quantityOne input
          = createByReal (notches (params Example.front))
      ∧ pat_distanceOne input
          = createByReal (pattern_distance (params Example.front)).
Proof.
  split; [vm_compute; reflexivity |].
  apply (draw_patterns_the_finger_cut Example.steady Example.front
           Example.fresh).
  vm_compute; reflexivity.
Defined.


Lemma duplicate_second_direction_witness :
  isValid Example.steady (journal Example.fresh) 1 = true
  ∧ isValid Example.steady (journal Example.fresh) 2 = true
  ∧ fgt0 (params_distance Example.front) = true
  ∧ ∃ input,
      duplicate Example.steady Example.front "Pattern" [0] 3%Q 8%Q 2%Q
        (Some 1) (Some 2) 3 Example.fresh =
        (Ok (length (journal Example.fresh)),
         after Example.fresh
           [patterns_add input;
            set_name (length (journal Example.fresh)) "Pattern"]
           (attrs Example.fresh))
      ∧ pat_directionTwo input =
          Some (2, createByReal 2%Q,
                createByReal (fsub (params_distance Example.front)
                                (depth (params Example.front)))).
Proof.
  do 3 (split; [reflexivity |]).
  apply (duplicate_second_direction Example.steady Example.front "Pattern"
           [0] 3%Q 8%Q 2%Q 1 2 3 Example.fresh); reflexivity.
Defined.

Lemma duplicate_reports_a_valid_secondary_witness :
  isValid Example.steady (journal Example.fresh) 1 = true
  ∧ isValid Example.steady (journal Example.fresh) 2 = true
  ∧ fgt0 (params_distance Example.shallow) = false
  ∧ duplicate Example.steady Example.shallow "Pattern" [0] 3%Q 8%Q 2%Q
      (Some 1) (Some 2) 3 Example.fresh =
      (Ok (length (journal Example.fresh) + 1),
       after Example.fresh
         [messageBox "secondary valid: True";
          patterns_add
            (patterns_createInput [0] 1 (createByReal 3%Q)
               (createByReal 8%Q) ExtentPatternDistanceType);
          set_name (length (journal Example.fresh) + 1) "Pattern"]
         (attrs Example.fresh)).
Proof.
  do 3 (split; [reflexivity |]).
  apply (duplicate_reports_a_valid_secondary Example.steady Example.shallow
           "Pattern" [0] 3%Q 8%Q 2%Q 1 2 3 Example.fresh); reflexivity.
Defined.

Lemma duplicate_invalid_secondary_is_reported_witness :
  isValid Example.lopsided (journal Example.fresh) 1 = true
  ∧ (∀ e, Some 2 = Some e →
       isValid Example.lopsided (journal Example.fresh) e = false →
       ∃ input,
         duplicate Example.lopsided Example.front "Pattern" [0] 3%Q 8%Q 2%Q
           (Some 1) (Some 2) 3 Example.fresh =
           (Ok (length (journal Example.fresh) + 1),
            after Example.fresh
              [messageBox "secondary valid: False";
               patterns_add input;
               set_name (length (journal Example.fresh) + 1) "Pattern"]
              (attrs Example.fresh))
         ∧ pat_directionTwo input = None)
    ∧ (∀ r es a input,
         duplicate Example.lopsided Example.front "Pattern" [0] 3%Q 8%Q 2%Q
           (Some 1) (Some 2) 3 Example.fresh = (r, after Example.fresh es a) →
         patterns_add input ∈ es →
         is_Some (pat_directionTwo input) →
         ∃ e, Some 2 = Some e
              ∧ isValid Example.lopsided (journal Example.fresh) e = true).
Proof.
  split; [reflexivity |].
  apply (duplicate_invalid_secondary_is_reported Example.lopsided
           Example.front "Pattern" [0] 3%Q 8%Q 2%Q 1 (Some 2) 3
           Example.fresh).
  reflexivity.
Defined.

Lemma duplicate_without_secondary_fails_witness :
  isValid Example.steady (journal Example.fresh) 1 = true
  ∧ (fst (duplicate Example.steady Example.front "Pattern" [0] 3%Q 8%Q 2%Q
            (Some 1) None 3 Example.fresh) = Raise AttributeError
     ↔ None = (None : option Edge))
    ∧ (None = (None : option Edge) →
       duplicate Example.steady Example.front "Pattern" [0] 3%Q 8%Q 2%Q
         (Some 1) None 3 Example.fresh
       = (Raise AttributeError, Example.fresh)).
Proof.
  split; [reflexivity |].
  apply (duplicate_without_secondary_fails Example.steady Example.front
           "Pattern" [0] 3%Q 8%Q 2%Q 1 None 3 Example.fresh).
  reflexivity.
Defined.

Lemma constrain_finger_follows_the_border_witness :
  attrs Example.finger_drawn !! "finger" = Some 0
  ∧ let vertical :=
      is_vertical Example.upright (journal Example.finger_drawn) in
    let s' := snd (constrain_finger Example.upright 0 Example.finger_drawn) in
    let n := length (journal Example.finger_drawn) in
    fst (constrain_finger Example.upright 0 Example.finger_drawn) = Ok tt
    ∧ length (journal s') = n + 8
    ∧ take n (journal s') = journal Example.finger_drawn
    ∧ journal s' !! n =
        Some ((if vertical then addVertical else addHorizontal)
                (Drawn 0, bottom))
    ∧ journal s' !! (n + 1) =
        Some ((if vertical then addVertical else addHorizontal)
                (Drawn 0, top))
    ∧ journal s' !! (n + 2) =
        Some ((if vertical then addHorizontal else addVertical)
                (Drawn 0, left))
    ∧ journal s' !! (n + 3) =
        Some ((if vertical then addHorizontal else addVertical)
                (Drawn 0, right))
    ∧ (∃ d t,
         attrs s' !! "finger_dimension" = Some d
         ∧ journal s' !! d =
             Some (addDistanceDimension (Drawn 0, bottom_left)
                     (Drawn 0,
                      if vertical then top_left else bottom_right)
                     (if vertical then VerticalDimension
                      else HorizontalDimension) t))
    ∧ (∃ d t,
         attrs s' !! "offset_dimension" = Some d
         ∧ journal s' !! d =
             Some (addDistanceDimension (Drawn 0, bottom_left)
                     (Border, bottom_left)
                     (if vertical then VerticalDimension
                      else HorizontalDimension) t)).
Proof.
  split; [reflexivity |].
  apply (constrain_finger_follows_the_border Example.upright 0 0
           Example.finger_drawn).
  reflexivity.
Defined.

Lemma init_makes_outline_and_border_construction_witness :
  List.length
    (Sketch.sketches_add Example.sketch_host
       (Sketch.brepface Example.square)) = 4
  ∧ List.length (Sketch.edges Example.square) = 4
  ∧ (∀ e, e ∈ Sketch.edges Example.square →
       List.length (Sketch.project Example.sketch_host e) = 1)
  ∧ let sk := Sketch.init Example.sketch_host "Front" Example.square in
    List.length (Sketch.lines sk) = 8
    ∧ Forall (λ l, Sketch.isConstruction l = true) (Sketch.lines sk)
    ∧ Sketch.tracked (Sketch.face_lines sk) = [0; 1; 2; 3]
    ∧ Sketch.tracked (Sketch.border sk) = [4; 5; 6; 7]
    ∧ (∀ i e, Sketch.edges Example.square !! i = Some e →
         Sketch.origin <$> (Sketch.lines sk !! (4 + i))
         = Sketch.origin <$> head (Sketch.project Example.sketch_host e))
    ∧ Sketch.sketch_face sk = Sketch.brepface Example.square
    ∧ Sketch.reference_points sk
        = Sketch.reference_points_of (Sketch.border sk)
    ∧ Sketch.reference_line sk
        = Sketch.reference_line_of (Sketch.border sk).
Proof.
  split; [reflexivity |]. split; [reflexivity |].
  split; [intros e _; reflexivity |].
  apply (init_makes_outline_and_border_construction Example.sketch_host
           "Front" Example.square);
    [reflexivity | reflexivity | intros e _; reflexivity].
Defined.


